(** * flytekit.annotated.workflow: the [@workflow] decorator and the
      [Workflow] callable

    A shallow embedding of [src/flytekit/annotated/workflow.py].  Python
    objects are values of [PyObj], exceptions are values of [exn], and code
    that reads or changes process state (the context stack, the logger, the
    object store) runs in the state-and-error monad [M]. *)

From Stdlib Require Import List String Ascii ZArith Lia Bool PeanoNat.
Import ListNotations.
Local Open Scope string_scope.
Local Open Scope list_scope.

Set Warnings "-register-all".

(** ** Python dicts

    A [dict] keeps insertion order and holds a key at most once: storing
    under a key that is present overwrites the value in place, storing under
    a new key appends. *)

Definition dict (V : Type) : Type := list (string * V).

Fixpoint dict_get {V} (k : string) (d : dict V) : option V :=
  match d with
  | [] => None
  | (k', v) :: d' => if String.eqb k k' then Some v else dict_get k d'
  end.

Fixpoint dict_set {V} (k : string) (v : V) (d : dict V) : dict V :=
  match d with
  | [] => [(k, v)]
  | (k', v') :: d' =>
      if String.eqb k k' then (k', v) :: d' else (k', v') :: dict_set k v d'
  end.

Definition dict_keys {V} (d : dict V) : list string := map fst d.

Definition dict_items {V} (d : dict V) : list (string * V) := d.

(** [{key(x): value(x) for x in xs}] *)
Definition dict_comprehension {A V} (key : A -> string) (value : A -> V)
    (xs : list A) : dict V :=
  fold_left (fun acc x => dict_set (key x) (value x) acc) xs [].

(** [enumerate(xs)] *)
Definition enumerate {A} (xs : list A) : list (nat * A) :=
  combine (seq 0 (List.length xs)) xs.

(** ** Errors as values *)

Definition result (E A : Type) : Type := sum E A.

Definition res_bind {E A B} (r : result E A) (f : A -> result E B)
  : result E B :=
  match r with
  | inl e => inl e
  | inr a => f a
  end.

Notation "'let?' x ':=' c 'in' k" := (res_bind c (fun x => k))
  (at level 10, x pattern, c at level 100, k at level 200).

(** A [for] loop whose body may raise: the first error leaves the loop. *)
Fixpoint for_each {E A S} (step : S -> A -> result E S) (xs : list A) (s : S)
  : result E S :=
  match xs with
  | [] => inr s
  | x :: xs' => let? s' := step s x in for_each step xs' s'
  end.

(** ** Models of [flytekit.models] that this module builds or reads *)

Inductive ResourceType : Type := UNSPECIFIED | TASK | WORKFLOW | LAUNCH_PLAN.

Record Identifier : Type := mkIdentifier {
  resource_type : ResourceType;
  project : string;
  domain : string;
  name : string;
  version : string
}.

(** [types.OutputReference(node_id, var)] *)
Record OutputReference : Type := mkOutputReference {
  node_id : string;
  ref_var : string
}.

(** [ExecutionState.Mode] *)
Inductive Mode : Type := TASK_EXECUTION | LOCAL_WORKFLOW_EXECUTION.

Record ExecutionState : Type := mkExecutionState { mode : Mode }.

(** The type mapper's literal representation, the literal types of an
    interface, the nodes that task calls register, Python type annotations
    and the native (untyped) interface are owned by other modules; this
    module only passes them around. *)
Class Models : Type := {
  Literal : Type;
  LiteralType : Type;
  Node : Type;
  Annotation : Type;
  NativeInterface : Type
}.

Section Objects.
Context {models : Models}.

(** *** Python objects

    The shapes of object that this module distinguishes at run time:
    [None], a bare scalar ([5], ['hi']), a [Promise(var, val)], an
    [OutputReference], the tuple a function body returns, and a
    string-keyed dict. *)
Inductive PyObj : Type :=
| PyNone
| PyInt (n : Z)
| PyStr (s : string)
| PyPromise (var : string) (val : Literal)
| PyOutputReference (r : OutputReference)
| PyTuple (items : list PyObj)
| PyDict (entries : list (string * PyObj)).

(** Exceptions.  [Exception msg] is what [raise Exception(msg)] raises;
    [KeyError], [IndexError], [TypeError] and [AttributeError] are raised
    by Python's own subscript, iteration and attribute operations;
    [OtherError] stands for any other class a collaborator or a function
    body raises.  All of them derive from [Exception]. *)
Inductive exn : Type :=
| Exception (msg : string)
| KeyError (key : PyObj)
| IndexError
| TypeError
| AttributeError
| OtherError (cls msg : string).

Definition res (A : Type) : Type := result exn A.

(** [o.val] *)
Definition getattr_val (o : PyObj) : res Literal :=
  match o with
  | PyPromise _ v => inr v
  | _ => inl AttributeError
  end.

Definition chars (s : string) : list PyObj :=
  map (fun c => PyStr (String c EmptyString)) (list_ascii_of_string s).

(** [o[i]] for a non-negative integer [i] *)
Definition getitem (o : PyObj) (i : nat) : res PyObj :=
  match o with
  | PyTuple xs =>
      match nth_error xs i with Some x => inr x | None => inl IndexError end
  | PyStr s =>
      match nth_error (chars s) i with
      | Some x => inr x
      | None => inl IndexError
      end
  | PyDict _ => inl (KeyError (PyInt (Z.of_nat i)))
  | PyNone | PyInt _ | PyPromise _ _ | PyOutputReference _ => inl TypeError
  end.

(** The items [for x in o] visits. *)
Definition iter (o : PyObj) : res (list PyObj) :=
  match o with
  | PyTuple xs => inr xs
  | PyStr s => inr (chars s)
  | PyDict d => inr (map (fun kv => PyStr (fst kv)) d)
  | PyNone | PyInt _ | PyPromise _ _ | PyOutputReference _ => inl TypeError
  end.

(** [names[i]] on a list of strings *)
Definition list_getitem (names : list string) (i : nat) : res string :=
  match nth_error names i with
  | Some n => inr n
  | None => inl IndexError
  end.

(** [d[k]] on a string-keyed dict *)
Definition dict_getitem {V} (d : dict V) (k : string) : res V :=
  match dict_get k d with
  | Some v => inr v
  | None => inl (KeyError (PyStr k))
  end.

(** *** Interfaces, bindings and the compiled definition *)

(** [interface.Variable]: what a TypedInterface maps a name to. *)
Record InterfaceVariable : Type := mkVariable {
  type : LiteralType;
  description : string
}.

Record TypedInterface : Type := mkTypedInterface {
  inputs : dict InterfaceVariable;
  outputs : dict InterfaceVariable
}.

(** [interface.Parameter(var, default, required)] *)
Record ParameterModel : Type := mkParameter {
  parameter_var : InterfaceVariable;
  parameter_default : option Literal;
  required : bool
}.

(** [literals.BindingData(promise=...)] and [literals.Binding(var, binding)] *)
Record BindingData : Type := mkBindingData { promise : PyObj }.

Record Binding : Type := mkBinding {
  var : string;
  binding : BindingData
}.

(** Modelled from the spec: [SdkWorkflow], the compiled WorkflowDefinition
    of section 3: identifier, typed interface, node list (by value) and
    output bindings.  The constructor's other arguments ([inputs],
    [outputs], [metadata], [metadata_defaults]) are all passed [None]. *)
Record SdkWorkflow : Type := mkSdkWorkflow {
  sdk_nodes : list Node;
  sdk_id : Identifier;
  interface : TypedInterface;
  output_bindings : list Binding
}.

(** *** Execution contexts *)

Record CompilationState : Type := mkCompilationState { nodes : list Node }.

Record FlyteContext : Type := mkFlyteContext {
  compilation_state : option CompilationState;
  execution_state : option ExecutionState
}.

(** *** Functions

    [inspect.signature(fn)]: the parameters in declaration order, each
    with its annotation and its default ([None] for
    [inspect.Parameter.empty]), and the return annotation. *)
Record InspectParameter : Type := mkInspectParameter {
  annotation : option Annotation;
  default : option PyObj
}.

Record Signature : Type := mkSignature {
  parameters : dict InspectParameter;
  return_annotation : option Annotation
}.

(** A workflow function is user code.  Called with keyword arguments
    under the current context it returns a value or raises, and (spec
    4.3) each task call in it appends a node to the active compilation
    state: [body] gives the outcome together with the nodes registered,
    in call order. *)
Record WorkflowFunction : Type := mkWorkflowFunction {
  signature : Signature;
  body : dict PyObj -> FlyteContext -> res PyObj * list Node
}.

(** The attributes of a [Workflow] instance: [__init__] sets the first
    two, the decorator sets [id] afterwards. *)
Record Workflow : Type := mkWorkflow {
  _workflow_function : WorkflowFunction;
  _sdk_workflow : SdkWorkflow;
  id : option Identifier
}.

(** *** Process state

    The stack of contexts ([FlyteContext.current_context()] is its top),
    what has been observed so far (each logger line and each call of a
    workflow function body, oldest first), and the [Workflow] instances
    allocated so far, addressed by position. *)
Inductive Event : Type :=
| Warning (msg : string)
| Called (ctx : FlyteContext) (kwargs : dict PyObj).

Record World : Type := mkWorld {
  contexts : list FlyteContext;
  history : list Event;
  heap : list Workflow
}.

Definition M (A : Type) : Type := World -> res A * World.

Definition ret {A} (a : A) : M A := fun w => (inr a, w).

Definition raise {A} (e : exn) : M A := fun w => (inl e, w).

Definition bind {A B} (c : M A) (k : A -> M B) : M B :=
  fun w =>
    match c w with
    | (inl e, w') => (inl e, w')
    | (inr a, w') => k a w'
    end.

Definition lift {A} (r : res A) : M A := fun w => (r, w).

(** [try: c except Exception as e: handler(e)] *)
Definition try_except {A} (c : M A) (handler : exn -> M A) : M A :=
  fun w =>
    match c w with
    | (inl e, w') => handler e w'
    | (inr a, w') => (inr a, w')
    end.

End Objects.

Notation "'let*' x ':=' c 'in' k" := (bind c (fun x => k))
  (at level 10, x pattern, c at level 100, k at level 200).

(** ** External collaborators (spec section 6)

    The type mapper of [flytekit.engine], the interface transformers of
    [flytekit.annotated.interface] and the sentinel node id of
    [flytekit.common.constants].  Each may raise. *)
Class Collaborators {models : Models} : Type := {
  GLOBAL_INPUT_NODE_ID : string;
  python_value_to_idl_literal :
    FlyteContext -> PyObj -> LiteralType -> res Literal;
  idl_literal_to_python_value : FlyteContext -> Literal -> res PyObj;
  transform_signature_to_interface : Signature -> res NativeInterface;
  transform_interface_to_typed_interface : NativeInterface -> res TypedInterface
}.

Section Runtime.
Context {models : Models} {collaborators : Collaborators}.

(** Modelled from the spec: [flytekit.engine.idl_literal_map_to_python_value],
    the type mapper's [(context, LiteralMap) -> nativeValues] of section 6:
    each entry of the literal map is converted back to its native value
    and kept under its name. *)
Definition idl_literal_map_to_python_value (ctx : FlyteContext)
    (literals : dict Literal) : res PyObj :=
  let? natives :=
    for_each
      (fun acc kv =>
         let? v := idl_literal_to_python_value ctx (snd kv) in
         inr (dict_set (fst kv) v acc))
      (dict_items literals) [] in
  inr (PyDict natives).

(** *** The context stack

    Modelled from the spec: [flytekit.annotated.context_manager], section
    4.2.  With no context entered the current context is uninitialised. *)
Definition uninitialized : FlyteContext :=
  {| compilation_state := None; execution_state := None |}.

Definition current_context : M FlyteContext :=
  fun w => (inr (hd uninitialized (contexts w)), w).

Definition push_context (c : FlyteContext) (w : World) : World :=
  {| contexts := c :: contexts w; history := history w; heap := heap w |}.

Definition pop_context (w : World) : World :=
  {| contexts := tl (contexts w); history := history w; heap := heap w |}.

(** Modelled from the spec: entering LOCAL_EXECUTION carries no node
    list. *)
Definition new_execution_context (ctx : FlyteContext) (m : Mode)
  : M FlyteContext :=
  fun w =>
    let new_ctx := {| compilation_state := None;
                      execution_state := Some {| mode := m |} |} in
    (inr new_ctx, push_context new_ctx w).

(** Modelled from the spec: entering COMPILATION allocates a fresh, empty
    node list; entering it while a compilation is already active is an
    unsupported-nesting error. *)
Definition new_compilation_context (ctx : FlyteContext) : M FlyteContext :=
  fun w =>
    match compilation_state ctx with
    | Some _ => (inl (OtherError "Exception" "unsupported nesting"), w)
    | None =>
        let new_ctx := {| compilation_state := Some {| nodes := [] |};
                          execution_state := None |} in
        (inr new_ctx, push_context new_ctx w)
    end.

(** [with enter as c: block(c)]: the context entered is left on every
    exit of the block, normal or not. *)
Definition with_context {A} (enter : M FlyteContext)
    (block : FlyteContext -> M A) : M A :=
  fun w =>
    match enter w with
    | (inl e, w1) => (inl e, w1)
    | (inr c, w1) => let (r, w2) := block c w1 in (r, pop_context w2)
    end.

(** [logger.warning(msg)] *)
Definition logger_warning (msg : string) : M unit :=
  fun w =>
    (inr tt, {| contexts := contexts w;
                history := history w ++ [Warning msg];
                heap := heap w |}).

(** Appending nodes to the compilation state of a context, if it has one. *)
Definition register (ns : list Node) (c : FlyteContext) : FlyteContext :=
  match compilation_state c with
  | Some cs => {| compilation_state := Some {| nodes := nodes cs ++ ns |};
                  execution_state := execution_state c |}
  | None => c
  end.

(** Calling [fn] with keyword arguments: the body runs under the current context; the nodes it
    registers are appended to that context's compilation state. *)
Definition call_function (fn : WorkflowFunction) (kwargs : dict PyObj)
  : M PyObj :=
  fun w =>
    let ctx := hd uninitialized (contexts w) in
    let (r, ns) := body fn kwargs ctx in
    (r, {| contexts := match contexts w with
                       | [] => []
                       | c :: cs => register ns c :: cs
                       end;
           history := history w ++ [Called ctx kwargs];
           heap := heap w |}).

(** [comp_ctx.compilation_state.nodes], read after the body has run:
    [comp_ctx] is the context on top of the stack. *)
Definition compilation_nodes : M (list Node) :=
  let* ctx := current_context in
  match compilation_state ctx with
  | Some cs => ret (nodes cs)
  | None => raise AttributeError
  end.

(** *** The object store *)

(** [Workflow(workflow_function, sdk_workflow)]: allocation followed by
    [Workflow.__init__]. *)
Definition new_Workflow (workflow_function : WorkflowFunction)
    (sdk_workflow : SdkWorkflow) : M nat :=
  fun w =>
    (inr (List.length (heap w)),
     {| contexts := contexts w;
        history := history w;
        heap := heap w ++ [ {| _workflow_function := workflow_function;
                               _sdk_workflow := sdk_workflow;
                               id := None |} ] |}).

Fixpoint update_nth {A} (n : nat) (f : A -> A) (l : list A) : list A :=
  match l, n with
  | [], _ => []
  | x :: l', O => f x :: l'
  | x :: l', S n' => x :: update_nth n' f l'
  end.

(** [instance.id = workflow_id] *)
Definition setattr_id (instance : nat) (workflow_id : Identifier) : M unit :=
  fun w =>
    (inr tt,
     {| contexts := contexts w;
        history := history w;
        heap := update_nth instance
                  (fun o => {| _workflow_function := _workflow_function o;
                               _sdk_workflow := _sdk_workflow o;
                               id := Some workflow_id |})
                  (heap w) |}).

End Runtime.

(** ** class Workflow *)

Module Workflow.
Section Methods.
Context {models : Models} {collaborators : Collaborators}.

(** The value expression of the dict comprehension of lines 36-40 at one
    keyword argument: look up the declared input, convert the native
    value with its type. *)
Definition literal_of_kwarg (self : Workflow) (ctx : FlyteContext)
    (kv : string * PyObj) : res Literal :=
  let (k, v) := kv in
  let? variable := dict_getitem (inputs (interface (_sdk_workflow self))) k in
  python_value_to_idl_literal ctx v (type variable).

(** The comprehension itself: each keyword argument, in order, stored
    under its name. *)
Definition inputs_as_dict_of_literals (self : Workflow) (ctx : FlyteContext)
    (kwargs : dict PyObj) : res (dict Literal) :=
  for_each
    (fun acc kv =>
       let? literal := literal_of_kwarg self ctx kv in
       inr (dict_set (fst kv) literal acc))
    (dict_items kwargs) [].

(** Lines 46-49. *)
Definition inputs_as_wrapped_promises (literals : dict Literal)
  : dict PyObj :=
  dict_comprehension fst (fun kv => PyPromise (fst kv) (snd kv))
    (dict_items literals).

(** [function_outputs[idx].val] *)
Definition output_value (function_outputs : PyObj) (idx : nat)
  : res Literal :=
  let? item := getitem function_outputs idx in
  getattr_val item.

(** Lines 54-63: the literal map assembled from what the body returned,
    or [None] where the method returns [None] at once. *)
Definition output_literal_map (self : Workflow) (function_outputs : PyObj)
  : res (option (dict Literal)) :=
  let output_names := dict_keys (outputs (interface (_sdk_workflow self))) in
  if (1 <? List.length output_names)%nat then
    let? m :=
      for_each
        (fun acc iv =>
           let? v := output_value function_outputs (fst iv) in
           inr (dict_set (snd iv) v acc))
        (enumerate output_names) [] in
    inr (Some m)
  else if (List.length output_names =? 1)%nat then
    let? name0 := list_getitem output_names 0 in
    let? v := getattr_val function_outputs in
    inr (Some (dict_set name0 v []))
  else inr None.

Definition _local_execute (self : Workflow) (ctx : FlyteContext)
    (kwargs : dict PyObj) : M PyObj :=
  let* literals :=
    try_except
      (lift (inputs_as_dict_of_literals self ctx kwargs))
      (fun e => let* _ := logger_warning "Exception!!!" in raise e) in
  let promises := inputs_as_wrapped_promises literals in
  let* function_outputs :=
    call_function (_workflow_function self) promises in
  let* output_literal_map := lift (output_literal_map self function_outputs) in
  match output_literal_map with
  | None => ret PyNone
  | Some literals => lift (idl_literal_map_to_python_value ctx literals)
  end.

(** The call [self._local_execute(ctx, kwargs...)] of line 81 gives
    [self] and [ctx] by position: a keyword argument of either name would
    be a second value for that parameter, which Python refuses with a
    [TypeError] before the method body runs. *)
Definition collides (kwargs : dict PyObj) : bool :=
  existsb (fun k => String.eqb k "self" || String.eqb k "ctx")
    (dict_keys kwargs).

Definition __call__ (self : Workflow) (args : list PyObj)
    (kwargs : dict PyObj) : M PyObj :=
  if (0 <? List.length args)%nat then raise (Exception "not allowed")
  else
    let* ctx := current_context in
    match compilation_state ctx with
    | Some _ => raise (Exception "not implemented")
    | None =>
        with_context (new_execution_context ctx LOCAL_WORKFLOW_EXECUTION)
          (fun ctx =>
             if collides kwargs then raise TypeError
             else _local_execute self ctx kwargs)
    end.

End Methods.
End Workflow.

Section Decorator.
Context {models : Models} {collaborators : Collaborators}.

(** Lines 94-98 and 163-167: the parameters that have a default. *)
Definition default_args (sig : Signature) : dict PyObj :=
  fold_left
    (fun acc kv =>
       match default (snd kv) with
       | Some d => dict_set (fst kv) d acc
       | None => acc
       end)
    (dict_items (parameters sig)) [].

Definition get_default_args (func : WorkflowFunction) : dict PyObj :=
  default_args (signature func).

(** Lines 100-104. *)
Definition input_parameter_models (interface : TypedInterface)
  : list ParameterModel :=
  fold_left
    (fun acc kv =>
       acc ++ [ {| parameter_var := snd kv;
                   parameter_default := None;
                   required := true |} ])
    (dict_items (inputs interface)) [].

(** Lines 110-113. *)
Definition input_kwargs (interface : TypedInterface) : dict PyObj :=
  dict_comprehension (fun k => k)
    (fun k => PyOutputReference
                {| node_id := GLOBAL_INPUT_NODE_ID; ref_var := k |})
    (dict_keys (inputs interface)).

(** Lines 124-134. *)
Definition bindings_of (interface : TypedInterface) (workflow_outputs : PyObj)
  : res (list Binding) :=
  let output_names := dict_keys (outputs interface) in
  if (0 <? List.length output_names)%nat then
    let? outs := iter workflow_outputs in
    for_each
      (fun bindings io =>
         let? output_name := list_getitem output_names (fst io) in
         let binding_data := {| promise := snd io |} in
         inr (bindings ++ [ {| var := output_name; binding := binding_data |} ]))
      (enumerate outs) []
  else inr [].

Definition workflow_id : Identifier :=
  mkIdentifier WORKFLOW "proj" "dom" "moreblah" "1".

Definition wrapper (fn : WorkflowFunction) : M nat :=
  let sig := signature fn in
  let* interface := lift (transform_signature_to_interface sig) in
  let* interface := lift (transform_interface_to_typed_interface interface) in
  let default_inputs := default_args sig in
  let input_parameter_models := input_parameter_models interface in
  let* ctx := current_context in
  let* traced :=
    with_context (new_compilation_context ctx)
      (fun comp_ctx =>
         let input_kwargs := input_kwargs interface in
         let* workflow_outputs := call_function fn input_kwargs in
         let* registered := compilation_nodes in
         ret (workflow_outputs, [] ++ registered)) in
  let (workflow_outputs, all_nodes) := traced : PyObj * list Node in
  let* bindings := lift (bindings_of interface workflow_outputs) in
  let sdk_workflow :=
    {| sdk_nodes := all_nodes;
       sdk_id := workflow_id;
       interface := interface;
       output_bindings := bindings |} in
  let* workflow_instance := new_Workflow fn sdk_workflow in
  let* _ := setattr_id workflow_instance workflow_id in
  ret workflow_instance.

(** What [workflow(...)] returns: the instance when it is given the
    function ([@workflow]), the decorator itself when it is not
    ([@workflow()]). *)
Inductive Decorated : Type :=
| Instance (instance : nat)
| Decorator (decorate : WorkflowFunction -> M nat).

Definition workflow (_workflow_function : option WorkflowFunction)
  : M Decorated :=
  match _workflow_function with
  | Some fn => let* instance := wrapper fn in ret (Instance instance)
  | None => ret (Decorator wrapper)
  end.

(** *** Calling an instance through its reference

    [instance(...)] looks the object up in the store and runs its
    [__call__]. *)
Definition invoke (instance : nat) (args : list PyObj) (kwargs : dict PyObj)
  : M PyObj :=
  fun w =>
    match nth_error (heap w) instance with
    | Some self => Workflow.__call__ self args kwargs w
    | None => (inl (OtherError "NameError" "no such object"), w)
    end.

(** A later invocation: the context stack the caller is in at that
    moment, and the arguments. *)
Record Invocation : Type := mkInvocation {
  caller_contexts : list FlyteContext;
  call_args : list PyObj;
  call_kwargs : dict PyObj
}.

Definition set_contexts (cs : list FlyteContext) (w : World) : World :=
  {| contexts := cs; history := history w; heap := heap w |}.

Fixpoint invoke_all (instance : nat) (calls : list Invocation) (w : World)
  : World :=
  match calls with
  | [] => w
  | c :: calls' =>
      invoke_all instance calls'
        (snd (invoke instance (call_args c) (call_kwargs c)
                (set_contexts (caller_contexts c) w)))
  end.

End Decorator.

(** ** Vocabulary of the statements below *)

Section Vocabulary.
Context {models : Models} {collaborators : Collaborators}.

(** The context a local execution runs under. *)
Definition local_context : FlyteContext :=
  {| compilation_state := None;
     execution_state := Some {| mode := LOCAL_WORKFLOW_EXECUTION |} |}.

(** The context a compile-time trace runs under, as it is entered. *)
Definition trace_context : FlyteContext :=
  {| compilation_state := Some {| nodes := [] |}; execution_state := None |}.

(** A compilation context is active. *)
Definition compiling (w : World) : Prop :=
  compilation_state (hd uninitialized (contexts w)) <> None.

(** The world after one more observation. *)
Definition observed (ev : Event) (w : World) : World :=
  {| contexts := contexts w; history := history w ++ [ev]; heap := heap w |}.

(** The instance a declaration allocates. *)
Definition declared (fn : WorkflowFunction) (ti : TypedInterface)
    (registered : list Node) (bindings : list Binding) : Workflow :=
  {| _workflow_function := fn;
     _sdk_workflow := {| sdk_nodes := registered;
                         sdk_id := workflow_id;
                         interface := ti;
                         output_bindings := bindings |};
     id := Some workflow_id |}.

(** An observation a local execution may leave: a logger line, or a body
    called outside any compilation. *)
Definition local_event (ev : Event) : Prop :=
  match ev with
  | Warning _ => True
  | Called ctx _ => compilation_state ctx = None
  end.

(** The binding of one declared output name to one returned value. *)
Definition bound (name_out : string * PyObj) : Binding :=
  {| var := fst name_out; binding := {| promise := snd name_out |} |}.

End Vocabulary.

(** ** A concrete platform and three workflows

    Integer and string literals, nodes named by their id, annotations given
    as the list of types of a (possibly one-element) tuple, and outputs
    named [o0], [o1], ... by position. *)

Module Example.

Inductive SimpleType : Type := INTEGER | STRING.

Inductive SimpleLiteral : Type :=
| LitInt (n : Z)
| LitStr (s : string).

Definition models : Models :=
  {| Literal := SimpleLiteral;
     LiteralType := SimpleType;
     Node := string;
     Annotation := list SimpleType;
     NativeInterface := dict SimpleType * list SimpleType |}.

#[local] Existing Instance models.

Definition to_literal (ctx : FlyteContext) (v : PyObj) (t : SimpleType)
  : res SimpleLiteral :=
  match v, t with
  | PyInt n, INTEGER => inr (LitInt n)
  | PyStr s, STRING => inr (LitStr s)
  | _, _ => inl (OtherError "TypeError" "value does not match its type")
  end.

Definition to_python (ctx : FlyteContext) (l : SimpleLiteral) : res PyObj :=
  match l with
  | LitInt n => inr (PyInt n)
  | LitStr s => inr (PyStr s)
  end.

Definition native_interface (sig : Signature)
  : res (dict SimpleType * list SimpleType) :=
  let? ins :=
    for_each
      (fun acc kv =>
         match annotation (snd kv) with
         | Some [t] => inr (dict_set (fst kv) t acc)
         | _ => inl (OtherError "TypeError" "parameter is not annotated")
         end)
      (parameters sig) [] in
  inr (ins, match return_annotation sig with Some ts => ts | None => [] end).

Definition out_name (i : nat) : string :=
  String "o" (String (ascii_of_nat (48 + i)) EmptyString).

Definition typed_interface (ni : dict SimpleType * list SimpleType)
  : res TypedInterface :=
  inr {| inputs := map (fun kt => (fst kt, mkVariable (snd kt) "")) (fst ni);
         outputs := map (fun it => (out_name (fst it), mkVariable (snd it) ""))
                      (enumerate (snd ni)) |}.

Definition collaborators : Collaborators :=
  {| GLOBAL_INPUT_NODE_ID := "start-node";
     python_value_to_idl_literal := to_literal;
     idl_literal_to_python_value := to_python;
     transform_signature_to_interface := native_interface;
     transform_interface_to_typed_interface := typed_interface |}.

#[local] Existing Instance collaborators.

Definition parameter (t : SimpleType) : InspectParameter :=
  {| annotation := Some [t]; default := None |}.

Definition reference (node var : string) : PyObj :=
  PyOutputReference {| node_id := node; ref_var := var |}.

Definition ready (var : string) (val : SimpleLiteral) : PyObj :=
  @PyPromise models var val.

(** [def wf(limit: int) -> int]: one task call, whose output is the
    workflow's output; run locally the task gives back its input. *)
Definition wf_limit : WorkflowFunction :=
  {| signature := {| parameters := [("limit", parameter INTEGER)];
                     return_annotation := Some [INTEGER] |};
     body := fun kwargs ctx =>
       match compilation_state ctx with
       | Some _ => (inr (reference "n0" "o0"), ["n0"])
       | None =>
           match dict_get "limit" kwargs with
           | Some (PyPromise _ v) => (inr (PyPromise "o0" v), [])
           | _ => (inl TypeError, [])
           end
       end |}.

(** [def wf(a: int, b: str) -> (int, str)]: two task calls. *)
Definition wf_pair : WorkflowFunction :=
  {| signature := {| parameters := [("a", parameter INTEGER);
                                    ("b", parameter STRING)];
                     return_annotation := Some [INTEGER; STRING] |};
     body := fun kwargs ctx =>
       match compilation_state ctx with
       | Some _ =>
           (inr (PyTuple [reference "n0" "o0"; reference "n1" "o0"]),
            ["n0"; "n1"])
       | None =>
           match dict_get "a" kwargs, dict_get "b" kwargs with
           | Some (PyPromise _ x), Some (PyPromise _ y) =>
               (inr (PyTuple [PyPromise "o0" x; PyPromise "o0" y]), [])
           | _, _ => (inl TypeError, [])
           end
       end |}.

(** [def wf(a: int) -> (int, str)] whose body returns a 1-tuple. *)
Definition wf_short : WorkflowFunction :=
  {| signature := {| parameters := [("a", parameter INTEGER)];
                     return_annotation := Some [INTEGER; STRING] |};
     body := fun kwargs ctx =>
       match compilation_state ctx with
       | Some _ => (inr (PyTuple [reference "n0" "o0"]), ["n0"])
       | None =>
           match dict_get "a" kwargs with
           | Some (PyPromise _ x) => (inr (PyTuple [PyPromise "o0" x]), [])
           | _ => (inl TypeError, [])
           end
       end |}.

(** A process that has entered no context and allocated no instance. *)
Definition fresh : World := {| contexts := []; history := []; heap := [] |}.

(** A process inside a compilation pass. *)
Definition in_compilation : World :=
  {| contexts := [ {| compilation_state := Some {| nodes := [] |};
                      execution_state := None |} ];
     history := [];
     heap := [] |}.

(** The instance a declaration of [wf_limit] holds: one input [limit],
    one output [o0]. *)
Definition limit_instance : Workflow :=
  {| _workflow_function := wf_limit;
     _sdk_workflow :=
       {| sdk_nodes := ["n0"];
          sdk_id := workflow_id;
          interface := {| inputs := [("limit", mkVariable INTEGER "")];
                          outputs := [("o0", mkVariable INTEGER "")] |};
          output_bindings :=
            [ {| var := "o0";
                 binding := {| promise := reference "n0" "o0" |} |} ] |};
     id := Some workflow_id |}.

(** The interface the collaborators derive for [wf_pair]. *)
Definition pair_native : dict SimpleType * list SimpleType :=
  ([("a", INTEGER); ("b", STRING)], [INTEGER; STRING]).

Definition pair_interface : TypedInterface :=
  {| inputs := [("a", mkVariable INTEGER ""); ("b", mkVariable STRING "")];
     outputs := [("o0", mkVariable INTEGER ""); ("o1", mkVariable STRING "")] |}.

(** The process after [wf_pair] has been declared in a fresh one. *)
Definition pair_declared : World := snd (wrapper wf_pair fresh).

(** Three later invocations: a local one, one made inside a compilation
    pass, one with a positional argument. *)
Definition later_calls : list Invocation :=
  [ {| caller_contexts := [];
       call_args := [];
       call_kwargs := [("a", PyInt 5); ("b", PyStr "hi")] |};
    {| caller_contexts := contexts in_compilation;
       call_args := [];
       call_kwargs := [("a", PyInt 5); ("b", PyStr "hi")] |};
    {| caller_contexts := [];
       call_args := [PyInt 5];
       call_kwargs := [] |} ].

(** [def wf(a: int, b: str = 'x', c: int = 7) -> int]: two parameters
    with a default; the body raises in either mode. *)
Definition wf_raises : WorkflowFunction :=
  {| signature :=
       {| parameters :=
            [("a", parameter INTEGER);
             ("b", {| annotation := Some [STRING];
                      default := Some (PyStr "x") |});
             ("c", {| annotation := Some [INTEGER];
                      default := Some (PyInt 7) |})];
          return_annotation := Some [INTEGER] |};
     body := fun kwargs ctx => (inl (OtherError "ValueError" "boom"), []) |}.

(** [def wf(a: int) -> int] whose body has no [return]. *)
Definition wf_none : WorkflowFunction :=
  {| signature := {| parameters := [("a", parameter INTEGER)];
                     return_annotation := Some [INTEGER] |};
     body := fun kwargs ctx => (inr PyNone, ["n0"]) |}.

(** [def wf(a: int) -> int] whose body returns a pair. *)
Definition wf_long : WorkflowFunction :=
  {| signature := {| parameters := [("a", parameter INTEGER)];
                     return_annotation := Some [INTEGER] |};
     body := fun kwargs ctx =>
       match compilation_state ctx with
       | Some _ =>
           (inr (PyTuple [reference "n0" "o0"; reference "n1" "o0"]),
            ["n0"; "n1"])
       | None =>
           match dict_get "a" kwargs with
           | Some (PyPromise _ x) =>
               (inr (PyTuple [PyPromise "o0" x; PyPromise "o0" x]), [])
           | _ => (inl TypeError, [])
           end
       end |}.

(** [def wf(a: int)]: no declared output. *)
Definition wf_void : WorkflowFunction :=
  {| signature := {| parameters := [("a", parameter INTEGER)];
                     return_annotation := None |};
     body := fun kwargs ctx => (inr (PyInt 5), ["n0"]) |}.

Definition one_native : dict SimpleType * list SimpleType :=
  ([("a", INTEGER)], [INTEGER]).

Definition one_interface : TypedInterface :=
  {| inputs := [("a", mkVariable INTEGER "")];
     outputs := [("o0", mkVariable INTEGER "")] |}.

Definition void_native : dict SimpleType * list SimpleType :=
  ([("a", INTEGER)], []).

Definition void_interface : TypedInterface :=
  {| inputs := [("a", mkVariable INTEGER "")]; outputs := [] |}.

(** An instance with the given body and interface, as [Workflow(fn, sdk)]
    followed by the assignment of [id] leaves it. *)
Definition instance_of (fn : WorkflowFunction) (ti : TypedInterface)
  : Workflow :=
  {| _workflow_function := fn;
     _sdk_workflow := {| sdk_nodes := [];
                         sdk_id := workflow_id;
                         interface := ti;
                         output_bindings := [] |};
     id := Some workflow_id |}.

(** A type mapper that cannot turn string literals back into native
    values. *)
Definition no_strings_back (ctx : FlyteContext) (l : SimpleLiteral)
  : res PyObj :=
  match l with
  | LitInt n => inr (PyInt n)
  | LitStr s => inl (OtherError "TypeError" "no native value for a string")
  end.

Definition picky : Collaborators :=
  {| GLOBAL_INPUT_NODE_ID := "start-node";
     python_value_to_idl_literal := to_literal;
     idl_literal_to_python_value := no_strings_back;
     transform_signature_to_interface := native_interface;
     transform_interface_to_typed_interface := typed_interface |}.

(** A signature transformer that rejects every signature. *)
Definition rejecting : Collaborators :=
  {| GLOBAL_INPUT_NODE_ID := "start-node";
     python_value_to_idl_literal := to_literal;
     idl_literal_to_python_value := to_python;
     transform_signature_to_interface :=
       fun _ => inl (OtherError "TypeError" "unsupported annotation");
     transform_interface_to_typed_interface := typed_interface |}.

(** The interface the collaborators derive for [wf_raises]. *)
Definition three_native : dict SimpleType * list SimpleType :=
  ([("a", INTEGER); ("b", STRING); ("c", INTEGER)], [INTEGER]).

Definition three_interface : TypedInterface :=
  {| inputs := [("a", mkVariable INTEGER ""); ("b", mkVariable STRING "");
                ("c", mkVariable INTEGER "")];
     outputs := [("o0", mkVariable INTEGER "")] |}.

(** One input, two declared outputs. *)
Definition short_interface : TypedInterface :=
  {| inputs := [("a", mkVariable INTEGER "")];
     outputs := [("o0", mkVariable INTEGER ""); ("o1", mkVariable STRING "")] |}.

(** [def wf(a: int) -> (int, str)] whose body returns a triple. *)
Definition wf_triple : WorkflowFunction :=
  {| signature := {| parameters := [("a", parameter INTEGER)];
                     return_annotation := Some [INTEGER; STRING] |};
     body := fun kwargs ctx =>
       match dict_get "a" kwargs with
       | Some (PyPromise _ x) =>
           (inr (PyTuple [PyPromise "o0" x; PyPromise "o0" x;
                          PyPromise "o0" x]), [])
       | _ => (inl TypeError, [])
       end |}.

(** The instance that declaring [wf_pair] stores. *)
Definition pair_stored : Workflow :=
  declared wf_pair pair_interface ["n0"; "n1"]
    [bound ("o0", reference "n0" "o0"); bound ("o1", reference "n1" "o0")].

End Example.

(** ** Dicts and loops *)

Section DictFacts.
Context {V : Type}.

Lemma dict_set_keys (k : string) (v : V) (d : dict V) (k' : string) :
  In k' (dict_keys (dict_set k v d)) <-> k' = k \/ In k' (dict_keys d).
Proof.
  induction d as [|[k0 v0] d IH]; simpl.
  - intuition congruence.
  - destruct (String.eqb_spec k k0) as [->|Hne]; simpl.
    + intuition congruence.
    + rewrite IH. intuition congruence.
Qed.

Lemma dict_set_NoDup (k : string) (v : V) (d : dict V) :
  NoDup (dict_keys d) -> NoDup (dict_keys (dict_set k v d)).
Proof.
  induction d as [|[k0 v0] d IH]; simpl; intros Hnd.
  - constructor; [intros [] | constructor].
  - inversion Hnd as [|? ? Hnotin Hnd']; subst.
    destruct (String.eqb_spec k k0) as [->|Hne]; simpl.
    + constructor; assumption.
    + constructor; [|apply IH; assumption].
      intros Hin. apply dict_set_keys in Hin. destruct Hin as [->|Hin].
      * apply Hne; reflexivity.
      * apply Hnotin; exact Hin.
Qed.

Lemma dict_set_In (k : string) (v : V) (d : dict V) (k' : string) (v' : V) :
  In (k', v') (dict_set k v d) -> (k' = k /\ v' = v) \/ In (k', v') d.
Proof.
  induction d as [|[k0 v0] d IH]; simpl.
  - intros [Heq|[]]. inversion Heq; subst. left; split; reflexivity.
  - destruct (String.eqb_spec k k0) as [->|Hne]; simpl.
    + intros [Heq|Hin].
      * inversion Heq; subst. left; split; reflexivity.
      * right; right; exact Hin.
    + intros [Heq|Hin].
      * right; left; exact Heq.
      * destruct (IH Hin) as [H|H]; [left; exact H | right; right; exact H].
Qed.

(** Storing under a key that is not there appends. *)
Lemma dict_set_fresh (k : string) (v : V) (d : dict V) :
  ~ In k (dict_keys d) -> dict_set k v d = d ++ [(k, v)].
Proof.
  induction d as [|[k0 v0] d IH]; simpl; intros Hnotin.
  - reflexivity.
  - destruct (String.eqb_spec k k0) as [->|Hne].
    + exfalso. apply Hnotin. left; reflexivity.
    + rewrite IH; [reflexivity|]. intros Hin. apply Hnotin. right; exact Hin.
Qed.

End DictFacts.

Section ComprehensionFacts.
Context {A V : Type} (key : A -> string) (value : A -> V).

Local Abbreviation store :=
  (fun (acc : dict V) (x : A) => dict_set (key x) (value x) acc).

Lemma fold_store_keys (xs : list A) (acc : dict V) (k : string) :
  In k (dict_keys (fold_left store xs acc)) <->
  In k (dict_keys acc) \/ In k (map key xs).
Proof.
  revert acc. induction xs as [|x xs IH]; simpl; intros acc.
  - intuition.
  - rewrite IH. rewrite dict_set_keys. intuition.
Qed.

Lemma fold_store_NoDup (xs : list A) (acc : dict V) :
  NoDup (dict_keys acc) -> NoDup (dict_keys (fold_left store xs acc)).
Proof.
  revert acc. induction xs as [|x xs IH]; simpl; intros acc Hnd.
  - exact Hnd.
  - apply IH. apply dict_set_NoDup. exact Hnd.
Qed.

Lemma fold_store_In (xs : list A) (acc : dict V) (k : string) (v : V) :
  In (k, v) (fold_left store xs acc) ->
  In (k, v) acc \/ exists x, In x xs /\ key x = k /\ value x = v.
Proof.
  revert acc. induction xs as [|x xs IH]; simpl; intros acc Hin.
  - left; exact Hin.
  - destruct (IH _ Hin) as [Hacc|[y [Hy [Hk Hv]]]].
    + apply dict_set_In in Hacc. destruct Hacc as [[-> ->]|Hacc].
      * right. exists x. split; [left; reflexivity | split; reflexivity].
      * left; exact Hacc.
    + right. exists y. split; [right; exact Hy | split; assumption].
Qed.

(** Over distinct keys a comprehension lists its entries in order. *)
Lemma fold_store_distinct (xs : list A) (acc : dict V) :
  NoDup (dict_keys acc ++ map key xs) ->
  fold_left store xs acc = acc ++ map (fun x => (key x, value x)) xs.
Proof.
  revert acc. induction xs as [|x xs IH]; simpl; intros acc Hnd.
  - rewrite app_nil_r; reflexivity.
  - assert (Hfresh : ~ In (key x) (dict_keys acc)).
    { intros Hin. apply NoDup_remove_2 in Hnd. apply Hnd.
      apply in_or_app. left; exact Hin. }
    rewrite (dict_set_fresh _ _ _ Hfresh).
    rewrite IH.
    + rewrite <- app_assoc. reflexivity.
    + unfold dict_keys in *. rewrite map_app. simpl.
      rewrite <- app_assoc. exact Hnd.
Qed.

Lemma dict_comprehension_distinct (xs : list A) :
  NoDup (map key xs) ->
  dict_comprehension key value xs = map (fun x => (key x, value x)) xs.
Proof.
  intros Hnd. unfold dict_comprehension.
  apply (fold_store_distinct xs []). exact Hnd.
Qed.

End ComprehensionFacts.

Section LoopFacts.
Context {E A B S : Type} (f : A -> result E B) (g : S -> A -> B -> S).

Local Abbreviation step :=
  (fun (acc : S) (x : A) => let? y := f x in inr (g acc x y)).

(** A loop one of whose items fails raises the error of the first item
    that fails, whatever it has accumulated. *)
Lemma for_each_first_failure (xs : list A) :
  (exists x, In x xs /\ exists e, f x = inl e) ->
  exists pre x post e,
    xs = pre ++ x :: post /\
    (forall y, In y pre -> exists b, f y = inr b) /\
    f x = inl e /\
    forall acc, for_each step xs acc = inl e.
Proof.
  induction xs as [|x xs IH]; intros [x0 [Hin [e0 He0]]].
  - destruct Hin.
  - destruct (f x) as [e|y] eqn:Hfx.
    + exists [], x, xs, e. split; [reflexivity|].
      split; [intros ? []|]. split; [exact Hfx|].
      intros acc. simpl. rewrite Hfx. reflexivity.
    + destruct Hin as [->|Hin]; [congruence|].
      destruct IH as [pre [x1 [post [e1 [Hxs [Hpre [Hf1 Hall]]]]]]].
      { exists x0. split; [exact Hin|]. exists e0; exact He0. }
      exists (x :: pre), x1, post, e1. split; [rewrite Hxs; reflexivity|].
      split.
      * intros z [<-|Hz]; [exists y; exact Hfx | apply Hpre; exact Hz].
      * split; [exact Hf1|].
        intros acc. simpl. rewrite Hfx. simpl. apply Hall.
Qed.

End LoopFacts.

Lemma update_nth_last {A} (f : A -> A) (l : list A) (x : A) :
  update_nth (List.length l) f (l ++ [x]) = l ++ [f x].
Proof.
  induction l as [|y l IH]; simpl; [reflexivity | rewrite IH; reflexivity].
Qed.

Lemma nth_error_last {A} (l : list A) (x : A) :
  nth_error (l ++ [x]) (List.length l) = Some x.
Proof.
  induction l as [|y l IH]; simpl; [reflexivity | exact IH].
Qed.

(** ** What [__call__] and the decorator compute *)

Section Properties.
Context {models : Models} {collaborators : Collaborators}.

(** A call without positional arguments outside any compilation, none of
    whose keyword arguments is named [self] or [ctx]: the contexts are as
    before, the conversion either fails, which is logged, or the body is
    called once under the local context. *)
Lemma call_local (self : Workflow) (kwargs : dict PyObj) (w : World) :
  ~ compiling w ->
  Workflow.collides kwargs = false ->
  Workflow.__call__ self [] kwargs w =
  match Workflow.inputs_as_dict_of_literals self local_context kwargs with
  | inl e => (inl e, observed (Warning "Exception!!!") w)
  | inr literals =>
      let promises := Workflow.inputs_as_wrapped_promises literals in
      (let? function_outputs :=
         fst (body (_workflow_function self) promises local_context) in
       let? output_literal_map :=
         Workflow.output_literal_map self function_outputs in
       match output_literal_map with
       | None => inr PyNone
       | Some m => idl_literal_map_to_python_value local_context m
       end,
       observed (Called local_context promises) w)
  end.
Proof.
  intros Hnc Hfree. unfold compiling in Hnc.
  unfold Workflow.__call__, bind, current_context. simpl.
  destruct (compilation_state (hd uninitialized (contexts w))) eqn:Hcs;
    [exfalso; apply Hnc; discriminate|].
  rewrite Hfree.
  unfold with_context, new_execution_context, Workflow._local_execute.
  fold local_context.
  unfold bind, try_except, lift.
  destruct (Workflow.inputs_as_dict_of_literals self local_context kwargs)
    as [e|literals].
  - unfold logger_warning, raise, pop_context, push_context, observed.
    simpl. reflexivity.
  - unfold call_function, push_context. simpl.
    destruct (body (_workflow_function self)
                (Workflow.inputs_as_wrapped_promises literals)
                local_context) as [r ns].
    unfold pop_context, observed. simpl.
    destruct r as [e|function_outputs]; simpl; [reflexivity|].
    destruct (Workflow.output_literal_map self function_outputs)
      as [e|[m|]]; simpl; unfold ret; reflexivity.
Qed.

(** The same call with a keyword argument named [self] or [ctx]: the
    [TypeError] of line 81, raised inside the execution context, which is
    left again; nothing is logged and the body is not called. *)
Lemma call_collision (self : Workflow) (kwargs : dict PyObj) (w : World) :
  ~ compiling w ->
  Workflow.collides kwargs = true ->
  Workflow.__call__ self [] kwargs w = (inl TypeError, w).
Proof.
  intros Hnc Hcollides. unfold compiling in Hnc.
  unfold Workflow.__call__, bind, current_context. simpl.
  destruct (compilation_state (hd uninitialized (contexts w))) eqn:Hcs;
    [exfalso; apply Hnc; discriminate|].
  rewrite Hcollides.
  unfold with_context, new_execution_context, raise, pop_context,
    push_context. simpl.
  destruct w; reflexivity.
Qed.

(** A declaration outside any compilation whose interface is derived:
    the body is traced once under a fresh compilation context, which is
    left again; then either the trace or the bindings fail, or one
    instance is allocated. *)
Lemma wrapper_traced (fn : WorkflowFunction) (w : World)
    (ni : NativeInterface) (ti : TypedInterface) :
  transform_signature_to_interface (signature fn) = inr ni ->
  transform_interface_to_typed_interface ni = inr ti ->
  ~ compiling w ->
  wrapper fn w =
  let traced := body fn (input_kwargs ti) trace_context in
  let w1 := observed (Called trace_context (input_kwargs ti)) w in
  match (let? workflow_outputs := fst traced in
         bindings_of ti workflow_outputs) with
  | inl e => (inl e, w1)
  | inr bindings =>
      (inr (List.length (heap w)),
       {| contexts := contexts w1;
          history := history w1;
          heap := heap w ++ [declared fn ti (snd traced) bindings] |})
  end.
Proof.
  intros Hni Hti Hnc. unfold compiling in Hnc.
  unfold wrapper, bind at 1, lift at 1. rewrite Hni.
  unfold bind at 1, lift at 1. rewrite Hti.
  unfold bind at 1, current_context at 1.
  destruct (compilation_state (hd uninitialized (contexts w))) eqn:Hcs;
    [exfalso; apply Hnc; discriminate|].
  unfold bind at 1, with_context, new_compilation_context. rewrite Hcs.
  fold trace_context.
  unfold bind at 1, call_function, push_context. simpl.
  destruct (body fn (input_kwargs ti) trace_context) as [r ns]. simpl.
  destruct r as [e|workflow_outputs]; simpl; [reflexivity|].
  unfold compilation_nodes, bind, current_context, ret, lift. simpl.
  destruct (bindings_of ti workflow_outputs) as [e|bindings]; simpl;
    [reflexivity|].
  unfold new_Workflow, setattr_id, pop_context, observed, declared. simpl.
  rewrite update_nth_last. reflexivity.
Qed.

(** Any other declaration fails before it traces anything. *)
Lemma wrapper_not_traced (fn : WorkflowFunction) (w : World) :
  (forall ni ti,
      transform_signature_to_interface (signature fn) = inr ni ->
      transform_interface_to_typed_interface ni = inr ti ->
      compiling w) ->
  exists e, wrapper fn w = (inl e, w).
Proof.
  intros Hno. unfold wrapper, bind at 1, lift at 1.
  destruct (transform_signature_to_interface (signature fn)) as [e|ni]
    eqn:Hni; [exists e; reflexivity|].
  unfold bind at 1, lift at 1.
  destruct (transform_interface_to_typed_interface ni) as [e|ti]
    eqn:Hti; [exists e; reflexivity|].
  specialize (Hno ni ti eq_refl Hti). unfold compiling in Hno.
  unfold bind at 1, current_context at 1.
  unfold bind at 1, with_context, new_compilation_context.
  destruct (compilation_state (hd uninitialized (contexts w)));
    [|exfalso; apply Hno; reflexivity].
  eexists; reflexivity.
Qed.

(** A declaration that succeeds derived its interface outside any
    compilation. *)
Lemma wrapper_succeeded (fn : WorkflowFunction) (w w' : World)
    (instance : nat) :
  wrapper fn w = (inr instance, w') ->
  exists ni ti,
    transform_signature_to_interface (signature fn) = inr ni /\
    transform_interface_to_typed_interface ni = inr ti /\
    ~ compiling w.
Proof.
  intros Hok.
  destruct (transform_signature_to_interface (signature fn)) as [e|ni] eqn:Hni.
  - destruct (wrapper_not_traced fn w) as [e' He'];
      [intros ? ? H; rewrite Hni in H; discriminate | congruence].
  - destruct (transform_interface_to_typed_interface ni) as [e|ti] eqn:Hti.
    + destruct (wrapper_not_traced fn w) as [e' He'];
        [|congruence].
      intros ni' ti' H1 H2. rewrite Hni in H1. inversion H1; subst.
      rewrite Hti in H2. discriminate.
    + exists ni, ti. split; [reflexivity|]. split; [exact Hti|].
      intros Hc. destruct (wrapper_not_traced fn w) as [e' He'];
        [intros; exact Hc | congruence].
Qed.

(** *** Invocation errors *)

(** C2: a call that supplies at least one positional argument raises the
    invocation error [Exception('not allowed')], whatever the workflow,
    its keyword arguments and the state of the process; nothing else
    happens. *)
Theorem positional_arguments_rejected (self : Workflow)
    (args : list PyObj) (kwargs : dict PyObj) (w : World) :
  args <> [] ->
  Workflow.__call__ self args kwargs w = (inl (Exception "not allowed"), w).
Proof.
  intros Hargs. destruct args as [|a args]; [contradiction|].
  reflexivity.
Qed.

(** C3: a call with keyword arguments only, made while a compilation
    context is active, raises [Exception('not implemented')], the
    unsupported-nesting error; the process state is left as it was, so
    no execution context is entered and no body is called. *)
Theorem call_during_compilation_not_implemented (self : Workflow)
    (kwargs : dict PyObj) (w : World) :
  compiling w ->
  Workflow.__call__ self [] kwargs w =
  (inl (Exception "not implemented"), w).
Proof.
  unfold compiling. intros Hc.
  unfold Workflow.__call__, bind, current_context. simpl.
  destruct (compilation_state (hd uninitialized (contexts w)));
    [reflexivity | contradiction].
Qed.

(** C9: with a positional argument supplied and a compilation context
    active at once, the error raised is the positional-argument error,
    not the unsupported-nesting error. *)
Theorem positional_check_precedes_nesting_check (self : Workflow)
    (args : list PyObj) (kwargs : dict PyObj) (w : World) :
  args <> [] ->
  compiling w ->
  fst (Workflow.__call__ self args kwargs w) = inl (Exception "not allowed") /\
  fst (Workflow.__call__ self args kwargs w) <>
    inl (Exception "not implemented").
Proof.
  intros Hargs _. destruct args as [|a args]; [contradiction|].
  split; [reflexivity | discriminate].
Qed.

(** *** Conversion errors *)

(** C4: when the conversion of some keyword argument fails, local
    execution ends by raising the very error [e] that the conversion of the
    first keyword argument to fail raised, after one warning has been
    logged; no value is returned and nothing else is observed, so the
    body is not called.  (Every error of [exn] derives from [Exception],
    which is what the handler catches.) *)
Theorem conversion_failure_logged_and_reraised (self : Workflow)
    (ctx : FlyteContext) (kwargs : dict PyObj) (w : World) :
  (exists kv, In kv kwargs /\
              exists e, Workflow.literal_of_kwarg self ctx kv = inl e) ->
  exists before kv after e,
    kwargs = before ++ kv :: after /\
    (forall kv', In kv' before ->
                 exists literal,
                   Workflow.literal_of_kwarg self ctx kv' = inr literal) /\
    Workflow.literal_of_kwarg self ctx kv = inl e /\
    Workflow._local_execute self ctx kwargs w =
    (inl e, observed (Warning "Exception!!!") w).
Proof.
  intros Hfail.
  destruct (for_each_first_failure
              (Workflow.literal_of_kwarg self ctx)
              (fun (acc : dict Literal) kv literal =>
                 dict_set (fst kv) literal acc)
              kwargs Hfail)
    as [before [kv [after [e [Hsplit [Hbefore [Hkv Hloop]]]]]]].
  exists before, kv, after, e.
  split; [exact Hsplit|]. split; [exact Hbefore|]. split; [exact Hkv|].
  unfold Workflow._local_execute, bind, try_except, lift.
  unfold Workflow.inputs_as_dict_of_literals, dict_items.
  rewrite Hloop. reflexivity.
Qed.

(** The same seen from [__call__]: the error leaves the execution
    context that was entered, and reaches the caller unchanged. *)
Corollary call_conversion_failure (self : Workflow) (kwargs : dict PyObj)
    (w : World) :
  ~ compiling w ->
  Workflow.collides kwargs = false ->
  (exists kv, In kv kwargs /\
              exists e,
                Workflow.literal_of_kwarg self local_context kv = inl e) ->
  exists kv e,
    In kv kwargs /\
    Workflow.literal_of_kwarg self local_context kv = inl e /\
    Workflow.__call__ self [] kwargs w =
    (inl e, observed (Warning "Exception!!!") w).
Proof.
  intros Hnc Hfree Hfail.
  destruct (for_each_first_failure
              (Workflow.literal_of_kwarg self local_context)
              (fun (acc : dict Literal) kv literal =>
                 dict_set (fst kv) literal acc)
              kwargs Hfail)
    as [before [kv [after [e [Hsplit [_ [Hkv Hloop]]]]]]].
  exists kv, e. split; [rewrite Hsplit; apply in_elt|]. split; [exact Hkv|].
  rewrite (call_local self kwargs w Hnc Hfree).
  unfold Workflow.inputs_as_dict_of_literals, dict_items.
  rewrite Hloop. reflexivity.
Qed.

(** *** The output bindings of a declaration *)

Lemma skipn_cons_nth {A} (l : list A) (n : nat) :
  n < List.length l ->
  exists x, nth_error l n = Some x /\ skipn n l = x :: skipn (S n) l.
Proof.
  revert n. induction l as [|y l IH]; intros n Hn; simpl in Hn; [lia|].
  destruct n as [|n].
  - exists y. split; reflexivity.
  - destruct (IH n) as [x [Hx Hs]]; [lia|].
    exists x. split; [exact Hx | exact Hs].
Qed.

(** The loop of lines 127-134 from position [n] on, while declared names
    remain: one binding per returned value. *)
Lemma bindings_loop (names : list string) (outs : list PyObj) :
  forall (n : nat) (acc : list Binding),
    n + List.length outs <= List.length names ->
    for_each
      (fun bindings io =>
         let? output_name := list_getitem names (fst io) in
         inr (bindings ++
              [ {| var := output_name; binding := {| promise := snd io |} |} ]))
      (combine (seq n (List.length outs)) outs) acc =
    inr (acc ++ map bound (combine (skipn n names) outs)).
Proof.
  induction outs as [|out outs IH]; intros n acc Hlen; simpl in *.
  - destruct (skipn n names); simpl; rewrite app_nil_r; reflexivity.
  - destruct (skipn_cons_nth names n) as [x [Hx Hs]]; [lia|].
    unfold list_getitem at 1. rewrite Hx. simpl.
    rewrite IH by lia. rewrite Hs. simpl.
    rewrite <- app_assoc. reflexivity.
Qed.

(** The same loop when more values are returned than names remain: the
    subscript [output_names[i]] raises. *)
Lemma bindings_loop_overflow (names : list string) (outs : list PyObj) :
  forall (n : nat) (acc : list Binding),
    n <= List.length names ->
    List.length names < n + List.length outs ->
    for_each
      (fun bindings io =>
         let? output_name := list_getitem names (fst io) in
         inr (bindings ++
              [ {| var := output_name; binding := {| promise := snd io |} |} ]))
      (combine (seq n (List.length outs)) outs) acc =
    inl IndexError.
Proof.
  induction outs as [|out outs IH]; intros n acc Hn Hlen; simpl in *; [lia|].
  destruct (Nat.eq_dec n (List.length names)) as [->|Hne].
  - unfold list_getitem.
    rewrite (proj2 (nth_error_None names (List.length names))) by lia.
    reflexivity.
  - destruct (skipn_cons_nth names n) as [x [Hx _]]; [lia|].
    unfold list_getitem at 1. rewrite Hx. simpl.
    apply IH; lia.
Qed.

(** With at least one declared output and a tuple returned that is no
    longer than the declared outputs, the bindings pair names and values
    by position; a shorter tuple is not detected. *)
Lemma bindings_of_tuple (ti : TypedInterface) (outs : list PyObj) :
  dict_keys (outputs ti) <> [] ->
  List.length outs <= List.length (dict_keys (outputs ti)) ->
  bindings_of ti (PyTuple outs) =
  inr (map bound (combine (dict_keys (outputs ti)) outs)).
Proof.
  intros Hne Hlen. unfold bindings_of. cbv zeta.
  destruct (dict_keys (outputs ti)) as [|n0 names] eqn:Hnames;
    [contradiction|].
  simpl Nat.ltb. cbv iota. simpl iter. unfold res_bind at 1.
  unfold enumerate. rewrite (bindings_loop (n0 :: names) outs 0 []).
  - reflexivity.
  - simpl in *. lia.
Qed.

(** A longer tuple makes the declaration fail with [IndexError]. *)
Lemma bindings_of_long_tuple (ti : TypedInterface) (outs : list PyObj) :
  dict_keys (outputs ti) <> [] ->
  List.length (dict_keys (outputs ti)) < List.length outs ->
  bindings_of ti (PyTuple outs) = inl IndexError.
Proof.
  intros Hne Hlen. unfold bindings_of. cbv zeta.
  destruct (dict_keys (outputs ti)) as [|n0 names] eqn:Hnames;
    [contradiction|].
  simpl Nat.ltb. cbv iota. simpl iter. unfold res_bind at 1.
  unfold enumerate. apply bindings_loop_overflow; simpl in *; lia.
Qed.

(** With no declared output whatever the body returns is ignored. *)
Lemma bindings_of_no_outputs (ti : TypedInterface) (workflow_outputs : PyObj) :
  dict_keys (outputs ti) = [] ->
  bindings_of ti workflow_outputs = inr [].
Proof.
  intros Hnone. unfold bindings_of. rewrite Hnone. reflexivity.
Qed.

(** *** What a declaration leaves behind *)

(** A declaration that succeeds has traced the body once, under a fresh
    compilation context that it has left again, and has allocated one
    instance, at the end of the store. *)
Lemma wrapper_allocates (fn : WorkflowFunction) (w w' : World)
    (instance : nat) :
  wrapper fn w = (inr instance, w') ->
  exists ti bindings,
    bindings_of ti (match fst (body fn (input_kwargs ti) trace_context) with
                    | inr workflow_outputs => workflow_outputs
                    | inl _ => PyNone
                    end) = inr bindings /\
    instance = List.length (heap w) /\
    contexts w' = contexts w /\
    history w' = history w ++ [Called trace_context (input_kwargs ti)] /\
    heap w' =
      heap w ++
      [declared fn ti (snd (body fn (input_kwargs ti) trace_context)) bindings].
Proof.
  intros Hok.
  destruct (wrapper_succeeded fn w w' instance Hok) as [ni [ti [Hni [Hti Hnc]]]].
  rewrite (wrapper_traced fn w ni ti Hni Hti Hnc) in Hok. cbv zeta in Hok.
  exists ti.
  destruct (fst (body fn (input_kwargs ti) trace_context))
    as [e|workflow_outputs]; simpl in Hok; [discriminate|].
  destruct (bindings_of ti workflow_outputs) as [e|bindings] eqn:Hb;
    [discriminate|].
  exists bindings. inversion Hok; subst. simpl.
  repeat split; reflexivity.
Qed.

Lemma combine_names (names : list string) :
  forall outs : list PyObj,
    List.length outs = List.length names ->
    map var (map bound (combine names outs)) = names /\
    map (fun b => promise (binding b)) (map bound (combine names outs)) = outs.
Proof.
  induction names as [|n names IH]; intros [|out outs] Hlen;
    simpl in *; try discriminate; try (split; reflexivity).
  destruct (IH outs) as [H1 H2]; [lia|].
  rewrite H1, H2. split; reflexivity.
Qed.

(** C6: in a declaration that reaches its trace, the body is invoked
    exactly once, under the fresh compilation context, and what the
    declaration does next is decided by what that invocation returns,
    raises and registers.  The keyword arguments of the invocation are
    these: no name twice, exactly the declared input names, and under each
    name the reference that pairs the global-input node id with that name;
    when the declared names are distinct they come in declaration
    order. *)
Theorem compile_trace_keyword_arguments (fn : WorkflowFunction) (w : World)
    (ni : NativeInterface) (ti : TypedInterface) :
  transform_signature_to_interface (signature fn) = inr ni ->
  transform_interface_to_typed_interface ni = inr ti ->
  ~ compiling w ->
  exists kwargs,
    wrapper fn w =
      match fst (body fn kwargs trace_context) with
      | inl e => (inl e, observed (Called trace_context kwargs) w)
      | inr workflow_outputs =>
          match bindings_of ti workflow_outputs with
          | inl e => (inl e, observed (Called trace_context kwargs) w)
          | inr bindings =>
              (inr (List.length (heap w)),
               {| contexts := contexts w;
                  history := history w ++ [Called trace_context kwargs];
                  heap := heap w ++
                          [declared fn ti
                             (snd (body fn kwargs trace_context)) bindings] |})
          end
      end /\
    history (snd (wrapper fn w)) = history w ++ [Called trace_context kwargs] /\
    NoDup (dict_keys kwargs) /\
    (forall k, In k (dict_keys kwargs) <-> In k (dict_keys (inputs ti))) /\
    (forall k v,
        In (k, v) kwargs ->
        v = PyOutputReference
              {| node_id := GLOBAL_INPUT_NODE_ID; ref_var := k |}) /\
    (NoDup (dict_keys (inputs ti)) ->
     kwargs =
     map (fun k => (k, PyOutputReference
                         {| node_id := GLOBAL_INPUT_NODE_ID; ref_var := k |}))
       (dict_keys (inputs ti))).
Proof.
  intros Hni Hti Hnc. exists (input_kwargs ti).
  split; [|split; [|split; [|split; [|split]]]].
  - rewrite (wrapper_traced fn w ni ti Hni Hti Hnc). cbv zeta.
    destruct (fst (body fn (input_kwargs ti) trace_context))
      as [e|workflow_outputs]; simpl; [reflexivity|].
    destruct (bindings_of ti workflow_outputs); reflexivity.
  - rewrite (wrapper_traced fn w ni ti Hni Hti Hnc). cbv zeta.
    destruct (let? workflow_outputs :=
                fst (body fn (input_kwargs ti) trace_context) in
              bindings_of ti workflow_outputs); reflexivity.
  - unfold input_kwargs, dict_comprehension.
    apply fold_store_NoDup. constructor.
  - intros k. unfold input_kwargs, dict_comprehension.
    rewrite fold_store_keys. rewrite map_id. simpl. intuition.
  - intros k v Hin. unfold input_kwargs, dict_comprehension in Hin.
    apply fold_store_In in Hin. destruct Hin as [[]|[x [_ [Hk Hv]]]].
    subst. reflexivity.
  - intros Hnd. unfold input_kwargs.
    apply dict_comprehension_distinct. rewrite map_id. exact Hnd.
Qed.

(** C7: when the interface declares at least one output and the traced
    body returns a tuple with as many items as there are declared outputs,
    the declaration succeeds and the definition it stores has one binding
    per declared output: the binding names are the declared output names
    in declaration order and each binding wraps the tuple item at its
    position. *)
Theorem output_bindings_follow_declared_outputs (fn : WorkflowFunction)
    (w : World) (ni : NativeInterface) (ti : TypedInterface)
    (outs : list PyObj) :
  transform_signature_to_interface (signature fn) = inr ni ->
  transform_interface_to_typed_interface ni = inr ti ->
  ~ compiling w ->
  fst (body fn (input_kwargs ti) trace_context) = inr (PyTuple outs) ->
  dict_keys (outputs ti) <> [] ->
  List.length outs = List.length (dict_keys (outputs ti)) ->
  exists instance w' wf,
    wrapper fn w = (inr instance, w') /\
    nth_error (heap w') instance = Some wf /\
    interface (_sdk_workflow wf) = ti /\
    output_bindings (_sdk_workflow wf) =
      map bound (combine (dict_keys (outputs ti)) outs) /\
    List.length (output_bindings (_sdk_workflow wf)) =
      List.length (dict_keys (outputs ti)) /\
    map var (output_bindings (_sdk_workflow wf)) = dict_keys (outputs ti) /\
    map (fun b => promise (binding b)) (output_bindings (_sdk_workflow wf)) =
      outs.
Proof.
  intros Hni Hti Hnc Hbody Hne Hlen.
  rewrite (wrapper_traced fn w ni ti Hni Hti Hnc). cbv zeta.
  rewrite Hbody. simpl res_bind.
  rewrite (bindings_of_tuple ti outs Hne) by lia.
  eexists _, _, _. split; [reflexivity|]. simpl.
  split; [apply nth_error_last|].
  destruct (combine_names (dict_keys (outputs ti)) outs Hlen) as [Hv Hp].
  simpl. repeat split.
  - rewrite <- Hv at 2. rewrite !length_map. reflexivity.
  - exact Hv.
  - exact Hp.
Qed.

(** C10: whatever the decorated functions, two declarations that succeed
    store the same identifier, the hard-coded one, both in the compiled
    definition and in the instance's [id] attribute. *)
Theorem every_declaration_gets_the_same_identifier
    (fn1 fn2 : WorkflowFunction) (w1 w2 w1' w2' : World) (i1 i2 : nat) :
  wrapper fn1 w1 = (inr i1, w1') ->
  wrapper fn2 w2 = (inr i2, w2') ->
  exists wf1 wf2,
    nth_error (heap w1') i1 = Some wf1 /\
    nth_error (heap w2') i2 = Some wf2 /\
    sdk_id (_sdk_workflow wf1) =
      mkIdentifier WORKFLOW "proj" "dom" "moreblah" "1" /\
    id wf1 = Some (mkIdentifier WORKFLOW "proj" "dom" "moreblah" "1") /\
    sdk_id (_sdk_workflow wf1) = sdk_id (_sdk_workflow wf2) /\
    id wf1 = id wf2.
Proof.
  intros H1 H2.
  destruct (wrapper_allocates fn1 w1 w1' i1 H1)
    as [ti1 [b1 [_ [Hi1 [_ [_ Hheap1]]]]]].
  destruct (wrapper_allocates fn2 w2 w2' i2 H2)
    as [ti2 [b2 [_ [Hi2 [_ [_ Hheap2]]]]]].
  eexists _, _. rewrite Hheap1, Hheap2, Hi1, Hi2.
  split; [apply nth_error_last|]. split; [apply nth_error_last|].
  repeat split; reflexivity.
Qed.

(** *** What an invocation leaves behind *)

(** One call of [__call__], whatever its arguments and the state it is
    made in: the context stack and the store are as before, and what is
    observed in addition are local events only. *)
Lemma call_effect (self : Workflow) (args : list PyObj) (kwargs : dict PyObj)
    (w : World) :
  let w' := snd (Workflow.__call__ self args kwargs w) in
  contexts w' = contexts w /\
  heap w' = heap w /\
  exists evs, history w' = history w ++ evs /\ Forall local_event evs.
Proof.
  destruct args as [|a args].
  - destruct (compilation_state (hd uninitialized (contexts w))) as [cs|] eqn:Hcs.
    + unfold Workflow.__call__, bind, current_context. simpl. rewrite Hcs.
      simpl. split; [reflexivity|]. split; [reflexivity|].
      exists []. rewrite app_nil_r. split; [reflexivity | constructor].
    + assert (Hnc : ~ compiling w)
        by (unfold compiling; rewrite Hcs; intros H; apply H; reflexivity).
      destruct (Workflow.collides kwargs) eqn:Hfree.
      * rewrite (call_collision self kwargs w Hnc Hfree). simpl.
        split; [reflexivity|]. split; [reflexivity|].
        exists []. rewrite app_nil_r. split; [reflexivity | constructor].
      * rewrite (call_local self kwargs w Hnc Hfree).
        destruct (Workflow.inputs_as_dict_of_literals self local_context kwargs)
          as [e|literals]; simpl.
        -- split; [reflexivity|]. split; [reflexivity|].
           eexists. split; [reflexivity|]. repeat constructor.
        -- split; [reflexivity|]. split; [reflexivity|].
           eexists. split; [reflexivity|]. repeat constructor.
  - simpl. split; [reflexivity|]. split; [reflexivity|].
    exists []. rewrite app_nil_r. split; [reflexivity | constructor].
Qed.

Lemma invoke_effect (instance : nat) (args : list PyObj) (kwargs : dict PyObj)
    (w : World) :
  let w' := snd (invoke instance args kwargs w) in
  contexts w' = contexts w /\
  heap w' = heap w /\
  exists evs, history w' = history w ++ evs /\ Forall local_event evs.
Proof.
  unfold invoke. destruct (nth_error (heap w) instance) as [self|].
  - apply call_effect.
  - simpl. split; [reflexivity|]. split; [reflexivity|].
    exists []. rewrite app_nil_r. split; [reflexivity | constructor].
Qed.

Lemma invoke_all_effect (instance : nat) (calls : list Invocation) :
  forall w : World,
    heap (invoke_all instance calls w) = heap w /\
    exists evs,
      history (invoke_all instance calls w) = history w ++ evs /\
      Forall local_event evs.
Proof.
  induction calls as [|c calls IH]; intros w; simpl.
  - split; [reflexivity|]. exists []. rewrite app_nil_r.
    split; [reflexivity | constructor].
  - destruct (invoke_effect instance (call_args c) (call_kwargs c)
                (set_contexts (caller_contexts c) w))
      as [_ [Hheap [evs1 [Hhist1 Hloc1]]]].
    destruct (IH (snd (invoke instance (call_args c) (call_kwargs c)
                         (set_contexts (caller_contexts c) w))))
      as [Hheap2 [evs2 [Hhist2 Hloc2]]].
    split.
    + rewrite Hheap2, Hheap. reflexivity.
    + exists (evs1 ++ evs2). split.
      * rewrite Hhist2, Hhist1. simpl. rewrite app_assoc. reflexivity.
      * apply Forall_app. split; assumption.
Qed.

(** C8: a declaration that succeeds has traced the body once and put one
    instance in the store, holding the compiled definition; after any
    sequence of later invocations of that instance, each made from an
    arbitrary context stack and with arbitrary arguments, the store is the
    same, so the instance holds the same definition, field for field, and
    nothing observed in between is a call under a compilation context: the
    definition is never built again. *)
Theorem definition_built_once_and_never_mutated (fn : WorkflowFunction)
    (w w' : World) (instance : nat) (calls : list Invocation) :
  wrapper fn w = (inr instance, w') ->
  exists wf kwargs,
    heap w' = heap w ++ [wf] /\
    nth_error (heap w') instance = Some wf /\
    history w' = history w ++ [Called trace_context kwargs] /\
    heap (invoke_all instance calls w') = heap w' /\
    nth_error (heap (invoke_all instance calls w')) instance = Some wf /\
    exists evs,
      history (invoke_all instance calls w') = history w' ++ evs /\
      Forall local_event evs.
Proof.
  intros Hok.
  destruct (wrapper_allocates fn w w' instance Hok)
    as [ti [bindings [_ [Hi [_ [Hhist Hheap]]]]]].
  destruct (invoke_all_effect instance calls w') as [Hframe Hevs].
  eexists _, _. split; [exact Hheap|].
  assert (Hnth : nth_error (heap w') instance =
                 Some (declared fn ti
                         (snd (body fn (input_kwargs ti) trace_context))
                         bindings)).
  { rewrite Hheap, Hi. apply nth_error_last. }
  split; [exact Hnth|]. split; [exact Hhist|].
  split; [exact Hframe|]. split; [rewrite Hframe; exact Hnth | exact Hevs].
Qed.

(** *** What a local call returns *)

Lemma nth_error_middle {A} (pre : list A) (x : A) (post : list A) :
  nth_error (pre ++ x :: post) (List.length pre) = Some x.
Proof.
  induction pre as [|y pre IH]; simpl; [reflexivity | exact IH].
Qed.

Lemma NoDup_keys_snoc {V} (acc : dict V) (k : string) (v : V)
    (names : list string) :
  NoDup (dict_keys acc ++ k :: names) ->
  ~ In k (dict_keys acc) /\ NoDup (dict_keys (acc ++ [(k, v)]) ++ names).
Proof.
  intros Hnd. split.
  - intros Hin. apply NoDup_remove_2 in Hnd. apply Hnd.
    apply in_or_app. left; exact Hin.
  - unfold dict_keys in *. rewrite map_app. simpl.
    rewrite <- app_assoc. exact Hnd.
Qed.

(** The loop of lines 58-59 from position [length pre] on: each declared
    name gets the [val] of the tuple item at its position. *)
Lemma output_loop (names : list string) :
  forall (lits : list Literal) (items pre : list PyObj) (acc : dict Literal),
    Forall2 (fun item lit => getattr_val item = inr lit) items lits ->
    List.length lits = List.length names ->
    NoDup (dict_keys acc ++ names) ->
    for_each
      (fun acc iv =>
         let? v := Workflow.output_value (PyTuple (pre ++ items)) (fst iv) in
         inr (dict_set (snd iv) v acc))
      (combine (seq (List.length pre) (List.length names)) names) acc =
    inr (acc ++ combine names lits).
Proof.
  induction names as [|n names IH]; intros lits items pre acc Hvals Hlen Hnd.
  - simpl. rewrite app_nil_r. reflexivity.
  - destruct lits as [|lit lits]; [discriminate|].
    inversion Hvals as [|item ? items' ? Hitem Hrest]; subst.
    destruct (NoDup_keys_snoc acc n lit names Hnd) as [Hfresh Hnd'].
    simpl. unfold Workflow.output_value at 1. simpl getitem.
    rewrite nth_error_middle. simpl. rewrite Hitem. simpl.
    rewrite (dict_set_fresh _ _ _ Hfresh).
    replace (pre ++ item :: items') with ((pre ++ [item]) ++ items')
      by (rewrite <- app_assoc; reflexivity).
    replace (S (List.length pre)) with (List.length (pre ++ [item]))
      by (rewrite length_app; simpl; lia).
    rewrite (IH lits items' (pre ++ [item]) (acc ++ [(n, lit)]) Hrest).
    + rewrite <- app_assoc. reflexivity.
    + simpl in Hlen. lia.
    + exact Hnd'.
Qed.

(** The conversion of a literal map back to native values, entry by
    entry. *)
Lemma conversion_loop (ctx : FlyteContext) (names : list string) :
  forall (lits : list Literal) (natives : list PyObj) (acc : dict PyObj),
    Forall2 (fun lit native => idl_literal_to_python_value ctx lit = inr native)
      lits natives ->
    List.length lits = List.length names ->
    NoDup (dict_keys acc ++ names) ->
    for_each
      (fun acc kv =>
         let? v := idl_literal_to_python_value ctx (snd kv) in
         inr (dict_set (fst kv) v acc))
      (combine names lits) acc =
    inr (acc ++ combine names natives).
Proof.
  induction names as [|n names IH]; intros lits natives acc Hconv Hlen Hnd.
  - simpl. rewrite app_nil_r. reflexivity.
  - destruct lits as [|lit lits]; [discriminate|].
    inversion Hconv as [|? native ? natives' Hlit Hrest]; subst.
    destruct (NoDup_keys_snoc acc n native names Hnd) as [Hfresh Hnd'].
    simpl. rewrite Hlit. simpl. rewrite (dict_set_fresh _ _ _ Hfresh).
    rewrite (IH lits natives' (acc ++ [(n, native)]) Hrest).
    + rewrite <- app_assoc. reflexivity.
    + simpl in Hlen. lia.
    + exact Hnd'.
Qed.

(** Zero declared outputs: the call returns [None], whatever the body
    returned. *)
Lemma call_no_outputs (self : Workflow) (kwargs : dict PyObj) (w : World)
    (literals : dict Literal) (function_outputs : PyObj) :
  ~ compiling w ->
  Workflow.collides kwargs = false ->
  Workflow.inputs_as_dict_of_literals self local_context kwargs = inr literals ->
  fst (body (_workflow_function self)
         (Workflow.inputs_as_wrapped_promises literals) local_context) =
    inr function_outputs ->
  dict_keys (outputs (interface (_sdk_workflow self))) = [] ->
  fst (Workflow.__call__ self [] kwargs w) = inr PyNone.
Proof.
  intros Hnc Hfree Hin Hbody Hnone.
  rewrite (call_local self kwargs w Hnc Hfree).
  rewrite Hin. cbv zeta. rewrite Hbody. simpl.
  unfold Workflow.output_literal_map. rewrite Hnone. reflexivity.
Qed.

(** One declared output: the call returns a dict with one entry, the
    native value of the returned promise under the declared name. *)
Lemma call_single_output (self : Workflow) (kwargs : dict PyObj) (w : World)
    (literals : dict Literal) (function_outputs : PyObj) (o : string)
    (lit : Literal) (native : PyObj) :
  ~ compiling w ->
  Workflow.collides kwargs = false ->
  Workflow.inputs_as_dict_of_literals self local_context kwargs = inr literals ->
  fst (body (_workflow_function self)
         (Workflow.inputs_as_wrapped_promises literals) local_context) =
    inr function_outputs ->
  dict_keys (outputs (interface (_sdk_workflow self))) = [o] ->
  getattr_val function_outputs = inr lit ->
  idl_literal_to_python_value local_context lit = inr native ->
  fst (Workflow.__call__ self [] kwargs w) = inr (PyDict [(o, native)]).
Proof.
  intros Hnc Hfree Hin Hbody Hone Hval Hconv.
  rewrite (call_local self kwargs w Hnc Hfree).
  rewrite Hin. cbv zeta. rewrite Hbody. simpl.
  unfold Workflow.output_literal_map. rewrite Hone. simpl.
  rewrite Hval. simpl.
  unfold idl_literal_map_to_python_value. simpl. rewrite Hconv. reflexivity.
Qed.

(** Several declared outputs: the call returns a dict with one entry per
    declared name, in declaration order, each holding the native value of
    the tuple item at its position. *)
Lemma call_many_outputs (self : Workflow) (kwargs : dict PyObj) (w : World)
    (literals : dict Literal) (items : list PyObj) (lits : list Literal)
    (natives : list PyObj) :
  let names := dict_keys (outputs (interface (_sdk_workflow self))) in
  ~ compiling w ->
  Workflow.collides kwargs = false ->
  Workflow.inputs_as_dict_of_literals self local_context kwargs = inr literals ->
  fst (body (_workflow_function self)
         (Workflow.inputs_as_wrapped_promises literals) local_context) =
    inr (PyTuple items) ->
  1 < List.length names ->
  NoDup names ->
  Forall2 (fun item lit => getattr_val item = inr lit) items lits ->
  Forall2 (fun lit native =>
             idl_literal_to_python_value local_context lit = inr native)
    lits natives ->
  List.length lits = List.length names ->
  fst (Workflow.__call__ self [] kwargs w) =
  inr (PyDict (combine names natives)).
Proof.
  intros names Hnc Hfree Hin Hbody Hmany Hnd Hvals Hconv Hlen.
  rewrite (call_local self kwargs w Hnc Hfree).
  rewrite Hin. cbv zeta. rewrite Hbody. simpl.
  unfold Workflow.output_literal_map. fold names.
  rewrite (proj2 (Nat.ltb_lt 1 (List.length names)) Hmany).
  unfold enumerate.
  pose proof (output_loop names lits items [] [] Hvals Hlen Hnd) as Hloop.
  change (PyTuple ([] ++ items)) with (PyTuple items) in Hloop.
  change (List.length (@nil PyObj)) with 0 in Hloop.
  rewrite Hloop. cbn [res_bind app].
  unfold idl_literal_map_to_python_value, dict_items.
  rewrite (conversion_loop local_context names lits natives [] Hconv Hlen Hnd).
  reflexivity.
Qed.

(** *** Arity of the returned tuple at declaration time *)

(** A body that returns fewer values than there are declared outputs is
    declared without error, with one binding per returned value. *)
Lemma shorter_tuple_not_detected (fn : WorkflowFunction) (w : World)
    (ni : NativeInterface) (ti : TypedInterface) (outs : list PyObj) :
  transform_signature_to_interface (signature fn) = inr ni ->
  transform_interface_to_typed_interface ni = inr ti ->
  ~ compiling w ->
  fst (body fn (input_kwargs ti) trace_context) = inr (PyTuple outs) ->
  List.length outs < List.length (dict_keys (outputs ti)) ->
  exists w' wf,
    wrapper fn w = (inr (List.length (heap w)), w') /\
    nth_error (heap w') (List.length (heap w)) = Some wf /\
    interface (_sdk_workflow wf) = ti /\
    List.length (output_bindings (_sdk_workflow wf)) = List.length outs.
Proof.
  intros Hni Hti Hnc Hbody Hlen.
  rewrite (wrapper_traced fn w ni ti Hni Hti Hnc). cbv zeta.
  rewrite Hbody. simpl res_bind.
  rewrite (bindings_of_tuple ti outs).
  - eexists _, _. split; [reflexivity|]. simpl.
    split; [apply nth_error_last|]. split; [reflexivity|].
    unfold declared. simpl. rewrite length_map, length_combine. lia.
  - intros Hnil. rewrite Hnil in Hlen. simpl in Hlen. lia.
  - lia.
Qed.

(** A body that returns more values than there are declared outputs, of
    which there is at least one, makes the declaration fail with the
    [IndexError] of the subscript. *)
Lemma longer_tuple_index_error (fn : WorkflowFunction) (w : World)
    (ni : NativeInterface) (ti : TypedInterface) (outs : list PyObj) :
  transform_signature_to_interface (signature fn) = inr ni ->
  transform_interface_to_typed_interface ni = inr ti ->
  ~ compiling w ->
  fst (body fn (input_kwargs ti) trace_context) = inr (PyTuple outs) ->
  dict_keys (outputs ti) <> [] ->
  List.length (dict_keys (outputs ti)) < List.length outs ->
  fst (wrapper fn w) = inl IndexError.
Proof.
  intros Hni Hti Hnc Hbody Hne Hlen.
  rewrite (wrapper_traced fn w ni ti Hni Hti Hnc). cbv zeta.
  rewrite Hbody. simpl res_bind.
  rewrite (bindings_of_long_tuple ti outs Hne Hlen). reflexivity.
Qed.

End Properties.

(** ** The workflows of the example *)

Section Examples.
#[local] Existing Instance Example.models.
#[local] Existing Instance Example.collaborators.
Import Example.

(** C1: at the workflow of the repository's test, one input [limit], one
    declared output, called locally with [limit=5] and a body whose
    promise holds the literal 5.  The call returns the dict
    [{'o0': 5}], which is not the bare value [5]. *)
Theorem single_output_call_returns_singleton_dict :
  fst (Workflow.__call__ limit_instance [] [("limit", PyInt 5)] fresh) =
    inr (PyDict [("o0", PyInt 5)]) /\
  fst (Workflow.__call__ limit_instance [] [("limit", PyInt 5)] fresh) <>
    inr (PyInt 5).
Proof.
  assert (H : fst (Workflow.__call__ limit_instance [] [("limit", PyInt 5)]
                     fresh) = inr (PyDict [("o0", PyInt 5)])).
  { apply (call_single_output limit_instance [("limit", PyInt 5)] fresh
             [("limit", LitInt 5)] (ready "o0" (LitInt 5)) "o0"
             (LitInt 5) (PyInt 5)); try reflexivity.
    unfold compiling. simpl. intros Hc. apply Hc. reflexivity. }
  split; [exact H|]. rewrite H. discriminate.
Qed.

(** C5: at a workflow that declares two outputs and whose body returns a
    1-tuple: the declaration succeeds, and the definition it stores has two
    declared outputs and a single output binding. *)
Theorem shorter_tuple_declared_without_error :
  exists (w' : World) (wf : Workflow),
    wrapper wf_short fresh = (inr 0, w') /\
    nth_error (heap w') 0 = Some wf /\
    dict_keys (outputs (interface (_sdk_workflow wf))) = ["o0"; "o1"] /\
    map var (output_bindings (_sdk_workflow wf)) = ["o0"].
Proof.
  eexists _, _. split; [vm_compute; reflexivity|].
  split; [reflexivity|]. split; reflexivity.
Qed.

Lemma positional_arguments_rejected_witness :
  [PyInt 5] <> [] /\
  Workflow.__call__ limit_instance [PyInt 5] [("limit", PyInt 5)] fresh =
  (inl (Exception "not allowed"), fresh).
Proof.
  assert (Hargs : [PyInt 5] <> []) by discriminate.
  split; [exact Hargs|].
  exact (positional_arguments_rejected limit_instance [PyInt 5]
           [("limit", PyInt 5)] fresh Hargs).
Defined.

Lemma call_during_compilation_not_implemented_witness :
  compiling in_compilation /\
  Workflow.__call__ limit_instance [] [("limit", PyInt 5)] in_compilation =
  (inl (Exception "not implemented"), in_compilation).
Proof.
  assert (Hc : compiling in_compilation) by (unfold compiling; simpl; discriminate).
  split; [exact Hc|].
  exact (call_during_compilation_not_implemented limit_instance
           [("limit", PyInt 5)] in_compilation Hc).
Defined.

Lemma positional_check_precedes_nesting_check_witness :
  [PyInt 5] <> [] /\
  compiling in_compilation /\
  fst (Workflow.__call__ limit_instance [PyInt 5] [] in_compilation) =
    inl (Exception "not allowed") /\
  fst (Workflow.__call__ limit_instance [PyInt 5] [] in_compilation) <>
    inl (Exception "not implemented").
Proof.
  assert (Hargs : [PyInt 5] <> []) by discriminate.
  assert (Hc : compiling in_compilation) by (unfold compiling; simpl; discriminate).
  split; [exact Hargs|]. split; [exact Hc|].
  exact (positional_check_precedes_nesting_check limit_instance [PyInt 5] []
           in_compilation Hargs Hc).
Defined.

Lemma conversion_failure_logged_and_reraised_witness :
  exists before kv after e,
    [("limit", PyStr "five")] = before ++ kv :: after /\
    (forall kv', In kv' before ->
                 exists literal,
                   Workflow.literal_of_kwarg limit_instance local_context kv' =
                   inr literal) /\
    Workflow.literal_of_kwarg limit_instance local_context kv = inl e /\
    Workflow._local_execute limit_instance local_context
      [("limit", PyStr "five")] fresh =
    (inl e, observed (Warning "Exception!!!") fresh).
Proof.
  apply (conversion_failure_logged_and_reraised limit_instance local_context
           [("limit", PyStr "five")] fresh).
  exists ("limit", PyStr "five"). split; [left; reflexivity|].
  exists (OtherError "TypeError" "value does not match its type").
  reflexivity.
Defined.

Lemma compile_trace_keyword_arguments_witness :
  exists kwargs,
    wrapper wf_pair fresh =
      match fst (body wf_pair kwargs trace_context) with
      | inl e => (inl e, observed (Called trace_context kwargs) fresh)
      | inr workflow_outputs =>
          match bindings_of pair_interface workflow_outputs with
          | inl e => (inl e, observed (Called trace_context kwargs) fresh)
          | inr bindings =>
              (inr (List.length (heap fresh)),
               {| contexts := contexts fresh;
                  history := history fresh ++ [Called trace_context kwargs];
                  heap := heap fresh ++
                          [declared wf_pair pair_interface
                             (snd (body wf_pair kwargs trace_context))
                             bindings] |})
          end
      end /\
    history (snd (wrapper wf_pair fresh)) =
      history fresh ++ [Called trace_context kwargs] /\
    NoDup (dict_keys kwargs) /\
    (forall k, In k (dict_keys kwargs) <->
               In k (dict_keys (inputs pair_interface))) /\
    (forall k v,
        In (k, v) kwargs ->
        v = PyOutputReference
              {| node_id := GLOBAL_INPUT_NODE_ID; ref_var := k |}) /\
    (NoDup (dict_keys (inputs pair_interface)) ->
     kwargs =
     map (fun k => (k, PyOutputReference
                         {| node_id := GLOBAL_INPUT_NODE_ID; ref_var := k |}))
       (dict_keys (inputs pair_interface))).
Proof.
  apply (compile_trace_keyword_arguments wf_pair fresh pair_native
           pair_interface).
  - reflexivity.
  - reflexivity.
  - unfold compiling. simpl. intros Hc. apply Hc. reflexivity.
Defined.

Lemma output_bindings_follow_declared_outputs_witness :
  exists instance w' wf,
    wrapper wf_pair fresh = (inr instance, w') /\
    nth_error (heap w') instance = Some wf /\
    interface (_sdk_workflow wf) = pair_interface /\
    output_bindings (_sdk_workflow wf) =
      map bound (combine (dict_keys (outputs pair_interface))
                   [reference "n0" "o0"; reference "n1" "o0"]) /\
    List.length (output_bindings (_sdk_workflow wf)) =
      List.length (dict_keys (outputs pair_interface)) /\
    map var (output_bindings (_sdk_workflow wf)) =
      dict_keys (outputs pair_interface) /\
    map (fun b => promise (binding b)) (output_bindings (_sdk_workflow wf)) =
      [reference "n0" "o0"; reference "n1" "o0"].
Proof.
  apply (output_bindings_follow_declared_outputs wf_pair fresh pair_native
           pair_interface [reference "n0" "o0"; reference "n1" "o0"]).
  - reflexivity.
  - reflexivity.
  - unfold compiling. simpl. intros Hc. apply Hc. reflexivity.
  - reflexivity.
  - simpl. discriminate.
  - reflexivity.
Defined.

Lemma every_declaration_gets_the_same_identifier_witness :
  exists wf1 wf2,
    nth_error (heap pair_declared) 0 = Some wf1 /\
    nth_error (heap (snd (wrapper wf_short fresh))) 0 = Some wf2 /\
    sdk_id (_sdk_workflow wf1) =
      mkIdentifier WORKFLOW "proj" "dom" "moreblah" "1" /\
    id wf1 = Some (mkIdentifier WORKFLOW "proj" "dom" "moreblah" "1") /\
    sdk_id (_sdk_workflow wf1) = sdk_id (_sdk_workflow wf2) /\
    id wf1 = id wf2.
Proof.
  apply (every_declaration_gets_the_same_identifier wf_pair wf_short
           fresh fresh pair_declared (snd (wrapper wf_short fresh)) 0 0).
  - vm_compute. reflexivity.
  - vm_compute. reflexivity.
Defined.

Lemma definition_built_once_and_never_mutated_witness :
  exists wf kwargs,
    heap pair_declared = heap fresh ++ [wf] /\
    nth_error (heap pair_declared) 0 = Some wf /\
    history pair_declared = history fresh ++ [Called trace_context kwargs] /\
    heap (invoke_all 0 later_calls pair_declared) = heap pair_declared /\
    nth_error (heap (invoke_all 0 later_calls pair_declared)) 0 = Some wf /\
    exists evs,
      history (invoke_all 0 later_calls pair_declared) =
        history pair_declared ++ evs /\
      Forall local_event evs.
Proof.
  apply (definition_built_once_and_never_mutated wf_pair fresh pair_declared
           0 later_calls).
  vm_compute. reflexivity.
Defined.

End Examples.

(** ** Further properties of the decorator *)

Lemma dict_get_set {V} (k k' : string) (v : V) (d : dict V) :
  dict_get k (dict_set k' v d) =
  if String.eqb k k' then Some v else dict_get k d.
Proof.
  induction d as [|[k0 v0] d IH]; simpl.
  - reflexivity.
  - destruct (String.eqb_spec k' k0) as [->|Hne]; simpl.
    + destruct (String.eqb k k0); reflexivity.
    + rewrite IH. destruct (String.eqb_spec k k0) as [->|Hne'].
      * destruct (String.eqb_spec k0 k') as [->|_];
          [exfalso; apply Hne; reflexivity | reflexivity].
      * reflexivity.
Qed.

Lemma dict_get_absent {V} (k : string) (d : dict V) :
  ~ In k (dict_keys d) -> dict_get k d = None.
Proof.
  induction d as [|[k0 v0] d IH]; simpl; intros Hnotin.
  - reflexivity.
  - destruct (String.eqb_spec k k0) as [->|Hne].
    + exfalso. apply Hnotin. left; reflexivity.
    + apply IH. intros Hin. apply Hnotin. right; exact Hin.
Qed.

Lemma dict_set_not_empty {V} (k : string) (v : V) (d : dict V) :
  dict_set k v d <> [].
Proof.
  destruct d as [|[k0 v0] d]; simpl; [discriminate|].
  destruct (String.eqb k k0); discriminate.
Qed.

Section Further.
Context {models : Models} {collaborators : Collaborators}.

Local Abbreviation keep_default :=
  (fun (acc : dict PyObj) (kv : string * InspectParameter) =>
     match default (snd kv) with
     | Some d => dict_set (fst kv) d acc
     | None => acc
     end).

Lemma default_loop_lookup (k : string) (ps : dict InspectParameter) :
  forall acc : dict PyObj,
    NoDup (dict_keys ps) ->
    dict_get k (fold_left keep_default ps acc) =
    match dict_get k ps with
    | Some p => match default p with
                | Some d => Some d
                | None => dict_get k acc
                end
    | None => dict_get k acc
    end.
Proof.
  induction ps as [|[k0 p0] ps IH]; intros acc Hnd; simpl.
  - reflexivity.
  - inversion Hnd as [|? ? Hnotin Hnd']; subst.
    rewrite (IH _ Hnd'). simpl.
    destruct (String.eqb_spec k k0) as [->|Hne].
    + rewrite (dict_get_absent k0 ps Hnotin).
      destruct (default p0) as [d|]; [|reflexivity].
      rewrite dict_get_set, String.eqb_refl. reflexivity.
    + destruct (default p0) as [d|]; [|reflexivity].
      rewrite dict_get_set.
      destruct (String.eqb_spec k k0) as [->|_];
        [exfalso; apply Hne; reflexivity | reflexivity].
Qed.

Lemma default_loop_not_empty (ps : dict InspectParameter) :
  forall acc : dict PyObj, acc <> [] -> fold_left keep_default ps acc <> [].
Proof.
  induction ps as [|[k0 p0] ps IH]; intros acc Hacc; simpl.
  - exact Hacc.
  - apply IH. destruct (default p0); [apply dict_set_not_empty | exact Hacc].
Qed.

(** X1: looking a name up in what [get_default_args] returns gives the
    default of the parameter of that name, and nothing when that
    parameter has no default or there is no such parameter. *)
Theorem get_default_args_lookup (func : WorkflowFunction) (k : string) :
  NoDup (dict_keys (parameters (signature func))) ->
  dict_get k (get_default_args func) =
  match dict_get k (parameters (signature func)) with
  | Some p => default p
  | None => None
  end.
Proof.
  intros Hnd. unfold get_default_args, default_args, dict_items.
  rewrite (default_loop_lookup k _ [] Hnd). simpl.
  destruct (dict_get k (parameters (signature func))) as [p|]; [|reflexivity].
  destruct (default p); reflexivity.
Qed.

(** X2: [get_default_args] returns the empty dict exactly when no
    parameter of the function has a default. *)
Theorem get_default_args_empty (func : WorkflowFunction) :
  get_default_args func = [] <->
  forall kv, In kv (parameters (signature func)) -> default (snd kv) = None.
Proof.
  unfold get_default_args, default_args, dict_items.
  induction (parameters (signature func)) as [|[k0 p0] ps IH]; simpl.
  - split; [intros _ ? [] | reflexivity].
  - destruct (default p0) as [d|] eqn:Hd.
    + split.
      * intros Hempty. exfalso.
        apply (default_loop_not_empty ps (dict_set k0 d [])); [|exact Hempty].
        apply dict_set_not_empty.
      * intros Hall. specialize (Hall (k0, p0) (or_introl eq_refl)).
        simpl in Hall. congruence.
    + rewrite IH. split.
      * intros Hall kv [<-|Hin]; [exact Hd | apply Hall; exact Hin].
      * intros Hall kv Hin. apply Hall. right; exact Hin.
Qed.

(** X3: [workflow()] without a function changes nothing and returns a
    decorator; applying that decorator to a function does what
    [workflow(fn)] does: the same state, the same error or the same
    instance. *)
Theorem workflow_with_and_without_function (fn : WorkflowFunction)
    (w : World) :
  exists decorate,
    workflow None w = (inr (Decorator decorate), w) /\
    snd (workflow (Some fn) w) = snd (decorate fn w) /\
    match fst (decorate fn w) with
    | inr instance => fst (workflow (Some fn) w) = inr (Instance instance)
    | inl e => fst (workflow (Some fn) w) = inl e
    end.
Proof.
  exists wrapper. split; [reflexivity|].
  unfold workflow, bind, ret.
  destruct (wrapper fn w) as [[e|instance] w']; simpl;
    split; reflexivity.
Qed.

(** X4: a declaration leaves the context stack as it found it, whether it
    succeeds or fails; when it fails no instance has been allocated, and
    when it succeeds exactly one has. *)
Theorem declaration_restores_contexts (fn : WorkflowFunction) (w : World) :
  contexts (snd (wrapper fn w)) = contexts w /\
  match fst (wrapper fn w) with
  | inl _ => heap (snd (wrapper fn w)) = heap w
  | inr instance =>
      instance = List.length (heap w) /\
      List.length (heap (snd (wrapper fn w))) = S (List.length (heap w))
  end.
Proof.
  destruct (wrapper fn w) as [[e|instance] w'] eqn:Hw; simpl.
  - destruct (transform_signature_to_interface (signature fn)) as [e1|ni]
      eqn:Hni.
    + destruct (wrapper_not_traced fn w) as [e' He'];
        [intros ? ? H; rewrite Hni in H; discriminate|].
      rewrite He' in Hw. inversion Hw; subst. split; reflexivity.
    + destruct (transform_interface_to_typed_interface ni) as [e2|ti] eqn:Hti.
      * destruct (wrapper_not_traced fn w) as [e' He'].
        { intros ni' ti' H1 H2. rewrite Hni in H1. inversion H1; subst.
          rewrite Hti in H2. discriminate. }
        rewrite He' in Hw. inversion Hw; subst. split; reflexivity.
      * destruct (compilation_state (hd uninitialized (contexts w)))
          as [cs|] eqn:Hcs.
        -- destruct (wrapper_not_traced fn w) as [e' He'].
           { intros _ _ _ _. unfold compiling. rewrite Hcs. discriminate. }
           rewrite He' in Hw. inversion Hw; subst. split; reflexivity.
        -- rewrite (wrapper_traced fn w ni ti Hni Hti) in Hw
             by (unfold compiling; rewrite Hcs; intros H; apply H; reflexivity).
           cbv zeta in Hw.
           destruct (let? workflow_outputs :=
                       fst (body fn (input_kwargs ti) trace_context) in
                     bindings_of ti workflow_outputs);
             inversion Hw; subst. split; reflexivity.
  - destruct (wrapper_allocates fn w w' instance Hw)
      as [ti [bindings [_ [Hi [Hctx [_ Hheap]]]]]].
    split; [exact Hctx|]. split; [exact Hi|].
    rewrite Hheap, length_app. simpl. lia.
Qed.

(** X5: when the body raises during the compile-time trace, the
    declaration raises that very error; the trace has been observed, the
    compilation context has been left and no instance exists. *)
Theorem declaration_propagates_body_error (fn : WorkflowFunction) (w : World)
    (ni : NativeInterface) (ti : TypedInterface) (e : exn) :
  transform_signature_to_interface (signature fn) = inr ni ->
  transform_interface_to_typed_interface ni = inr ti ->
  ~ compiling w ->
  fst (body fn (input_kwargs ti) trace_context) = inl e ->
  wrapper fn w =
  (inl e, observed (Called trace_context (input_kwargs ti)) w).
Proof.
  intros Hni Hti Hnc Hbody.
  rewrite (wrapper_traced fn w ni ti Hni Hti Hnc). cbv zeta.
  rewrite Hbody. reflexivity.
Qed.

(** X6: the instance a successful declaration stores holds the decorated
    function itself, the typed interface derived from its signature, and
    as node list exactly the nodes the body registered during the trace,
    in call order. *)
Theorem declaration_stores_function_interface_and_nodes
    (fn : WorkflowFunction) (w w' : World) (ni : NativeInterface)
    (ti : TypedInterface) (instance : nat) :
  transform_signature_to_interface (signature fn) = inr ni ->
  transform_interface_to_typed_interface ni = inr ti ->
  wrapper fn w = (inr instance, w') ->
  exists wf,
    nth_error (heap w') instance = Some wf /\
    _workflow_function wf = fn /\
    interface (_sdk_workflow wf) = ti /\
    sdk_nodes (_sdk_workflow wf) =
      snd (body fn (input_kwargs ti) trace_context).
Proof.
  intros Hni Hti Hok.
  destruct (wrapper_succeeded fn w w' instance Hok) as [ni' [ti' [Hni' [Hti' Hnc]]]].
  rewrite Hni in Hni'. inversion Hni'; subst ni'.
  rewrite Hti in Hti'. inversion Hti'; subst ti'.
  rewrite (wrapper_traced fn w ni ti Hni Hti Hnc) in Hok. cbv zeta in Hok.
  destruct (let? workflow_outputs :=
              fst (body fn (input_kwargs ti) trace_context) in
            bindings_of ti workflow_outputs) as [e|bindings];
    [discriminate|].
  inversion Hok; subst. simpl.
  eexists. split; [apply nth_error_last|].
  repeat split; reflexivity.
Qed.

(** X7: with no declared output, a declaration whose body returns
    normally succeeds and stores no output binding, whatever the body
    returned. *)
Theorem declaration_without_outputs_binds_nothing (fn : WorkflowFunction)
    (w : World) (ni : NativeInterface) (ti : TypedInterface)
    (workflow_outputs : PyObj) :
  transform_signature_to_interface (signature fn) = inr ni ->
  transform_interface_to_typed_interface ni = inr ti ->
  ~ compiling w ->
  fst (body fn (input_kwargs ti) trace_context) = inr workflow_outputs ->
  outputs ti = [] ->
  exists w' wf,
    wrapper fn w = (inr (List.length (heap w)), w') /\
    nth_error (heap w') (List.length (heap w)) = Some wf /\
    output_bindings (_sdk_workflow wf) = [].
Proof.
  intros Hni Hti Hnc Hbody Hnone.
  rewrite (wrapper_traced fn w ni ti Hni Hti Hnc). cbv zeta.
  rewrite Hbody. simpl res_bind.
  rewrite (bindings_of_no_outputs ti workflow_outputs)
    by (rewrite Hnone; reflexivity).
  eexists _, _. split; [reflexivity|]. simpl.
  split; [apply nth_error_last | reflexivity].
Qed.

(** X8: with at least one declared output, a body that returns a tuple
    longer than the declared outputs makes the declaration fail with the
    [IndexError] of the subscript; no instance is allocated. *)
Theorem declaration_with_too_many_values_fails (fn : WorkflowFunction)
    (w : World) (ni : NativeInterface) (ti : TypedInterface)
    (outs : list PyObj) :
  transform_signature_to_interface (signature fn) = inr ni ->
  transform_interface_to_typed_interface ni = inr ti ->
  ~ compiling w ->
  fst (body fn (input_kwargs ti) trace_context) = inr (PyTuple outs) ->
  outputs ti <> [] ->
  List.length (outputs ti) < List.length outs ->
  wrapper fn w =
  (inl IndexError, observed (Called trace_context (input_kwargs ti)) w).
Proof.
  intros Hni Hti Hnc Hbody Hne Hlen.
  rewrite (wrapper_traced fn w ni ti Hni Hti Hnc). cbv zeta.
  rewrite Hbody. simpl res_bind.
  rewrite (bindings_of_long_tuple ti outs).
  - reflexivity.
  - unfold dict_keys. destruct (outputs ti); [contradiction | discriminate].
  - unfold dict_keys. rewrite length_map. exact Hlen.
Qed.

(** X9: with at least one declared output, a body that returns [None]
    (it has no [return]) or a bare integer makes the declaration fail
    with the [TypeError] of iterating over it. *)
Theorem declaration_with_scalar_result_fails (fn : WorkflowFunction)
    (w : World) (ni : NativeInterface) (ti : TypedInterface)
    (workflow_outputs : PyObj) :
  transform_signature_to_interface (signature fn) = inr ni ->
  transform_interface_to_typed_interface ni = inr ti ->
  ~ compiling w ->
  fst (body fn (input_kwargs ti) trace_context) = inr workflow_outputs ->
  outputs ti <> [] ->
  workflow_outputs = PyNone \/ (exists n, workflow_outputs = PyInt n) ->
  wrapper fn w =
  (inl TypeError, observed (Called trace_context (input_kwargs ti)) w).
Proof.
  intros Hni Hti Hnc Hbody Hne Hscalar.
  rewrite (wrapper_traced fn w ni ti Hni Hti Hnc). cbv zeta.
  rewrite Hbody. simpl res_bind. unfold bindings_of, dict_keys.
  destruct (outputs ti) as [|o os]; [contradiction|]. simpl.
  destruct Hscalar as [->|[n ->]]; reflexivity.
Qed.

(** X10: an error of either interface transformer is raised by the
    declaration unchanged, before anything happens: the state is as it
    was and the body has not been called. *)
Theorem declaration_propagates_interface_error (fn : WorkflowFunction)
    (w : World) (e : exn) :
  transform_signature_to_interface (signature fn) = inl e \/
  (exists ni, transform_signature_to_interface (signature fn) = inr ni /\
              transform_interface_to_typed_interface ni = inl e) ->
  wrapper fn w = (inl e, w).
Proof.
  intros [Hni|[ni [Hni Hti]]]; unfold wrapper, bind at 1, lift at 1;
    rewrite Hni; [reflexivity|].
  unfold bind at 1, lift at 1. rewrite Hti. reflexivity.
Qed.

End Further.

(** ** Further properties of a local call *)

Lemma map_fst_combine {A B} (xs : list A) :
  forall ys : list B,
    List.length xs = List.length ys -> map fst (combine xs ys) = xs.
Proof.
  induction xs as [|x xs IH]; intros [|y ys] Hlen; simpl in *;
    try discriminate; try reflexivity.
  rewrite IH by lia. reflexivity.
Qed.

Section LoopPrefix.
Context {E A B S : Type} (f : A -> result E B) (g : S -> A -> B -> S).

(** A loop whose first items succeed and whose next item fails raises
    the error of that item. *)
Lemma for_each_fails_after (pre : list A) (x : A) (post : list A) (e : E) :
  (forall y, In y pre -> exists b, f y = inr b) ->
  f x = inl e ->
  forall acc,
    for_each (fun (acc : S) (x : A) => let? y := f x in inr (g acc x y))
      (pre ++ x :: post) acc = inl e.
Proof.
  induction pre as [|y pre IH]; intros Hpre Hx acc; simpl.
  - rewrite Hx. reflexivity.
  - destruct (Hpre y (or_introl eq_refl)) as [b Hb]. rewrite Hb. simpl.
    apply IH; [|exact Hx]. intros z Hz. apply Hpre. right; exact Hz.
Qed.

End LoopPrefix.

Section FurtherCalls.
Context {models : Models} {collaborators : Collaborators}.

(** The comprehension of lines 36-40 over keyword arguments that all
    convert: each literal is stored under its argument's name, in order. *)
Lemma inputs_loop (self : Workflow) (ctx : FlyteContext)
    (kwargs : dict PyObj) :
  forall (lits : list Literal) (acc : dict Literal),
    Forall2 (fun kv lit => Workflow.literal_of_kwarg self ctx kv = inr lit)
      kwargs lits ->
    NoDup (dict_keys acc ++ dict_keys kwargs) ->
    for_each
      (fun acc kv =>
         let? literal := Workflow.literal_of_kwarg self ctx kv in
         inr (dict_set (fst kv) literal acc))
      kwargs acc =
    inr (acc ++ combine (dict_keys kwargs) lits).
Proof.
  induction kwargs as [|[k v] kwargs IH]; intros lits acc Hconv Hnd.
  - inversion Hconv; subst. simpl. rewrite app_nil_r. reflexivity.
  - inversion Hconv as [|? lit ? lits' Hkv Hrest]; subst.
    destruct (NoDup_keys_snoc acc k lit (dict_keys kwargs) Hnd)
      as [Hfresh Hnd'].
    cbn [for_each]. rewrite Hkv. cbn [res_bind fst dict_keys map].
    rewrite (dict_set_fresh _ _ _ Hfresh).
    rewrite (IH lits' (acc ++ [(k, lit)]) Hrest Hnd'). cbn [combine].
    rewrite <- app_assoc. reflexivity.
Qed.

(** The loop of lines 58-59 when the tuple runs out before the declared
    names do. *)
Lemma output_loop_short (names : list string) :
  forall (items pre : list PyObj) (acc : dict Literal),
    Forall (fun item => exists lit, getattr_val item = inr lit) items ->
    List.length items < List.length names ->
    for_each
      (fun acc iv =>
         let? v := Workflow.output_value (PyTuple (pre ++ items)) (fst iv) in
         inr (dict_set (snd iv) v acc))
      (combine (seq (List.length pre) (List.length names)) names) acc =
    inl IndexError.
Proof.
  induction names as [|n names IH]; intros items pre acc Hvals Hlen;
    simpl in Hlen; [lia|].
  destruct items as [|item items].
  - simpl. unfold Workflow.output_value at 1. simpl getitem.
    rewrite app_nil_r.
    rewrite (proj2 (nth_error_None pre (List.length pre))) by lia.
    reflexivity.
  - inversion Hvals as [|? ? [lit Hitem] Hrest]; subst.
    simpl. unfold Workflow.output_value at 1. simpl getitem.
    rewrite nth_error_middle. simpl. rewrite Hitem. simpl.
    replace (pre ++ item :: items) with ((pre ++ [item]) ++ items)
      by (rewrite <- app_assoc; reflexivity).
    replace (S (List.length pre)) with (List.length (pre ++ [item]))
      by (rewrite length_app; simpl; lia).
    apply IH; [exact Hrest | simpl in Hlen; lia].
Qed.

(** The same loop when the tuple has items beyond the declared names:
    they are never read. *)
Lemma output_loop_prefix (names : list string) (extra : list PyObj) :
  forall (lits : list Literal) (items pre : list PyObj) (acc : dict Literal),
    Forall2 (fun item lit => getattr_val item = inr lit) items lits ->
    List.length lits = List.length names ->
    NoDup (dict_keys acc ++ names) ->
    for_each
      (fun acc iv =>
         let? v :=
           Workflow.output_value (PyTuple (pre ++ items ++ extra)) (fst iv) in
         inr (dict_set (snd iv) v acc))
      (combine (seq (List.length pre) (List.length names)) names) acc =
    inr (acc ++ combine names lits).
Proof.
  induction names as [|n names IH]; intros lits items pre acc Hvals Hlen Hnd.
  - simpl. rewrite app_nil_r. reflexivity.
  - destruct lits as [|lit lits]; [discriminate|].
    inversion Hvals as [|item ? items' ? Hitem Hrest]; subst.
    destruct (NoDup_keys_snoc acc n lit names Hnd) as [Hfresh Hnd'].
    simpl. unfold Workflow.output_value at 1. simpl getitem.
    rewrite nth_error_middle. simpl. rewrite Hitem. simpl.
    rewrite (dict_set_fresh _ _ _ Hfresh).
    replace (pre ++ item :: items' ++ extra)
      with ((pre ++ [item]) ++ items' ++ extra)
      by (rewrite <- app_assoc; reflexivity).
    replace (S (List.length pre)) with (List.length (pre ++ [item]))
      by (rewrite length_app; simpl; lia).
    rewrite (IH lits items' (pre ++ [item]) (acc ++ [(n, lit)]) Hrest).
    + rewrite <- app_assoc. reflexivity.
    + simpl in Hlen. lia.
    + exact Hnd'.
Qed.

(** X11: a keyword argument whose name is not a declared input makes the
    call fail with [KeyError] of that name, provided no keyword argument
    is named [self] or [ctx] and the keyword arguments before it convert;
    the failure is logged like a conversion error and the body is not
    called. *)
Theorem undeclared_keyword_raises_key_error (self : Workflow)
    (before : dict PyObj) (k : string) (v : PyObj) (after : dict PyObj)
    (w : World) :
  ~ compiling w ->
  Workflow.collides (before ++ (k, v) :: after) = false ->
  (forall kv, In kv before ->
              exists literal,
                Workflow.literal_of_kwarg self local_context kv = inr literal) ->
  dict_get k (inputs (interface (_sdk_workflow self))) = None ->
  Workflow.__call__ self [] (before ++ (k, v) :: after) w =
  (inl (KeyError (PyStr k)), observed (Warning "Exception!!!") w).
Proof.
  intros Hnc Hfree Hbefore Hundeclared.
  rewrite (call_local self _ w Hnc Hfree).
  unfold Workflow.inputs_as_dict_of_literals, dict_items.
  rewrite (for_each_fails_after
             (Workflow.literal_of_kwarg self local_context)
             (fun (acc : dict Literal) kv literal =>
                dict_set (fst kv) literal acc)
             before (k, v) after (KeyError (PyStr k)) Hbefore).
  - reflexivity.
  - unfold Workflow.literal_of_kwarg, dict_getitem. rewrite Hundeclared.
    reflexivity.
Qed.

(** X12: when no keyword argument is named [self] or [ctx], the keyword
    arguments convert and the body raises, the call raises that very
    error; the body call is the only thing observed (no warning is logged
    for it) and the execution context has been left. *)
Theorem call_propagates_body_error (self : Workflow) (kwargs : dict PyObj)
    (w : World) (literals : dict Literal) (e : exn) :
  ~ compiling w ->
  Workflow.collides kwargs = false ->
  Workflow.inputs_as_dict_of_literals self local_context kwargs = inr literals ->
  fst (body (_workflow_function self)
         (Workflow.inputs_as_wrapped_promises literals) local_context) =
    inl e ->
  Workflow.__call__ self [] kwargs w =
  (inl e,
   observed (Called local_context
               (Workflow.inputs_as_wrapped_promises literals)) w).
Proof.
  intros Hnc Hfree Hin Hbody. rewrite (call_local self kwargs w Hnc Hfree).
  rewrite Hin. cbv zeta. rewrite Hbody. reflexivity.
Qed.

(** X13: when the keyword arguments have distinct names, none of them
    [self] or [ctx], and all convert, the body is invoked once, under the
    local execution context, with one [Promise(var=k, val=literal)] per
    keyword argument supplied, under the argument's name and in the order
    given (declared inputs that were not supplied are not passed); what
    the call returns or raises is computed from what that invocation
    returns or raises. *)
Theorem body_receives_one_promise_per_keyword (self : Workflow)
    (kwargs : dict PyObj) (lits : list Literal) (w : World) :
  ~ compiling w ->
  Workflow.collides kwargs = false ->
  NoDup (dict_keys kwargs) ->
  Forall2 (fun kv lit =>
             Workflow.literal_of_kwarg self local_context kv = inr lit)
    kwargs lits ->
  let promises :=
    map (fun kl => (fst kl, PyPromise (fst kl) (snd kl)))
      (combine (dict_keys kwargs) lits) in
  Workflow.__call__ self [] kwargs w =
  (let? function_outputs :=
     fst (body (_workflow_function self) promises local_context) in
   let? output_literal_map :=
     Workflow.output_literal_map self function_outputs in
   match output_literal_map with
   | None => inr PyNone
   | Some m => idl_literal_map_to_python_value local_context m
   end,
   observed (Called local_context promises) w).
Proof.
  intros Hnc Hfree Hnd Hconv promises.
  rewrite (call_local self kwargs w Hnc Hfree).
  unfold Workflow.inputs_as_dict_of_literals, dict_items.
  rewrite (inputs_loop self local_context kwargs lits [] Hconv Hnd).
  cbn [app]. cbv zeta.
  assert (Hpromises :
            Workflow.inputs_as_wrapped_promises
              (combine (dict_keys kwargs) lits) = promises).
  { unfold Workflow.inputs_as_wrapped_promises, dict_items.
    apply dict_comprehension_distinct.
    rewrite map_fst_combine; [exact Hnd|].
    unfold dict_keys. rewrite length_map. exact (Forall2_length Hconv). }
  rewrite Hpromises. reflexivity.
Qed.

(** X14: when no keyword argument is named [self] or [ctx] and turning the
    assembled literal map back into native values fails, the call raises
    that error; unlike a failure on the way in it is not logged, and the
    body has been called. *)
Theorem call_propagates_output_conversion_error (self : Workflow)
    (kwargs : dict PyObj) (w : World) (literals : dict Literal)
    (function_outputs : PyObj) (m : dict Literal) (e : exn) :
  ~ compiling w ->
  Workflow.collides kwargs = false ->
  Workflow.inputs_as_dict_of_literals self local_context kwargs = inr literals ->
  fst (body (_workflow_function self)
         (Workflow.inputs_as_wrapped_promises literals) local_context) =
    inr function_outputs ->
  Workflow.output_literal_map self function_outputs = inr (Some m) ->
  idl_literal_map_to_python_value local_context m = inl e ->
  Workflow.__call__ self [] kwargs w =
  (inl e,
   observed (Called local_context
               (Workflow.inputs_as_wrapped_promises literals)) w).
Proof.
  intros Hnc Hfree Hin Hbody Hmap Hback.
  rewrite (call_local self kwargs w Hnc Hfree).
  rewrite Hin. cbv zeta. rewrite Hbody. simpl res_bind.
  rewrite Hmap. simpl res_bind. rewrite Hback. reflexivity.
Qed.

(** X15: with several declared outputs and no keyword argument named
    [self] or [ctx], a body that returns a tuple of promises shorter than
    the declared outputs makes the call fail with the [IndexError] of the
    subscript. *)
Theorem call_with_too_few_values_fails (self : Workflow) (kwargs : dict PyObj)
    (w : World) (literals : dict Literal) (items : list PyObj) :
  let names := dict_keys (outputs (interface (_sdk_workflow self))) in
  ~ compiling w ->
  Workflow.collides kwargs = false ->
  Workflow.inputs_as_dict_of_literals self local_context kwargs = inr literals ->
  fst (body (_workflow_function self)
         (Workflow.inputs_as_wrapped_promises literals) local_context) =
    inr (PyTuple items) ->
  1 < List.length names ->
  Forall (fun item => exists lit, getattr_val item = inr lit) items ->
  List.length items < List.length names ->
  fst (Workflow.__call__ self [] kwargs w) = inl IndexError.
Proof.
  intros names Hnc Hfree Hin Hbody Hmany Hvals Hlen.
  rewrite (call_local self kwargs w Hnc Hfree).
  rewrite Hin. cbv zeta. rewrite Hbody. simpl.
  unfold Workflow.output_literal_map. fold names.
  rewrite (proj2 (Nat.ltb_lt 1 (List.length names)) Hmany).
  unfold enumerate.
  pose proof (output_loop_short names items [] [] Hvals Hlen) as Hloop.
  change (PyTuple ([] ++ items)) with (PyTuple items) in Hloop.
  change (List.length (@nil PyObj)) with 0 in Hloop.
  rewrite Hloop. reflexivity.
Qed.

(** X16: with several declared outputs and no keyword argument named
    [self] or [ctx], items of the returned tuple beyond the declared
    outputs are ignored: the call returns the dict built from the first
    items, one entry per declared name in order. *)
Theorem call_ignores_extra_values (self : Workflow) (kwargs : dict PyObj)
    (w : World) (literals : dict Literal) (items extra : list PyObj)
    (lits : list Literal) (natives : list PyObj) :
  let names := dict_keys (outputs (interface (_sdk_workflow self))) in
  ~ compiling w ->
  Workflow.collides kwargs = false ->
  Workflow.inputs_as_dict_of_literals self local_context kwargs = inr literals ->
  fst (body (_workflow_function self)
         (Workflow.inputs_as_wrapped_promises literals) local_context) =
    inr (PyTuple (items ++ extra)) ->
  1 < List.length names ->
  NoDup names ->
  Forall2 (fun item lit => getattr_val item = inr lit) items lits ->
  Forall2 (fun lit native =>
             idl_literal_to_python_value local_context lit = inr native)
    lits natives ->
  List.length lits = List.length names ->
  fst (Workflow.__call__ self [] kwargs w) =
  inr (PyDict (combine names natives)).
Proof.
  intros names Hnc Hfree Hin Hbody Hmany Hnd Hvals Hconv Hlen.
  rewrite (call_local self kwargs w Hnc Hfree).
  rewrite Hin. cbv zeta. rewrite Hbody. simpl.
  unfold Workflow.output_literal_map. fold names.
  rewrite (proj2 (Nat.ltb_lt 1 (List.length names)) Hmany).
  unfold enumerate.
  pose proof (output_loop_prefix names extra lits items [] [] Hvals Hlen Hnd)
    as Hloop.
  change (PyTuple ([] ++ items ++ extra)) with (PyTuple (items ++ extra))
    in Hloop.
  change (List.length (@nil PyObj)) with 0 in Hloop.
  rewrite Hloop. cbn [res_bind app].
  unfold idl_literal_map_to_python_value, dict_items.
  rewrite (conversion_loop local_context names lits natives [] Hconv Hlen Hnd).
  reflexivity.
Qed.

(** X17: with exactly one declared output and no keyword argument named
    [self] or [ctx], a body that returns a tuple, even a 1-tuple holding
    a promise, makes the call fail with the [AttributeError] of reading
    [.val] off the tuple. *)
Theorem call_single_output_rejects_tuple (self : Workflow)
    (kwargs : dict PyObj) (w : World) (literals : dict Literal)
    (items : list PyObj) (o : string) :
  ~ compiling w ->
  Workflow.collides kwargs = false ->
  Workflow.inputs_as_dict_of_literals self local_context kwargs = inr literals ->
  fst (body (_workflow_function self)
         (Workflow.inputs_as_wrapped_promises literals) local_context) =
    inr (PyTuple items) ->
  dict_keys (outputs (interface (_sdk_workflow self))) = [o] ->
  fst (Workflow.__call__ self [] kwargs w) = inl AttributeError.
Proof.
  intros Hnc Hfree Hin Hbody Hone.
  rewrite (call_local self kwargs w Hnc Hfree).
  rewrite Hin. cbv zeta. rewrite Hbody. simpl.
  unfold Workflow.output_literal_map. rewrite Hone. reflexivity.
Qed.

(** X18: with several declared outputs, a body that returns [None] or a
    bare integer makes the call fail with the [TypeError] of subscripting
    it. *)
Theorem call_many_outputs_rejects_scalar (self : Workflow)
    (kwargs : dict PyObj) (w : World) (literals : dict Literal)
    (function_outputs : PyObj) :
  ~ compiling w ->
  Workflow.inputs_as_dict_of_literals self local_context kwargs = inr literals ->
  fst (body (_workflow_function self)
         (Workflow.inputs_as_wrapped_promises literals) local_context) =
    inr function_outputs ->
  1 < List.length (dict_keys (outputs (interface (_sdk_workflow self)))) ->
  function_outputs = PyNone \/ (exists n, function_outputs = PyInt n) ->
  fst (Workflow.__call__ self [] kwargs w) = inl TypeError.
Proof.
  intros Hnc Hin Hbody Hmany Hscalar.
  destruct (Workflow.collides kwargs) eqn:Hfree;
    [rewrite (call_collision self kwargs w Hnc Hfree); reflexivity|].
  rewrite (call_local self kwargs w Hnc Hfree).
  rewrite Hin. cbv zeta. rewrite Hbody. simpl.
  unfold Workflow.output_literal_map.
  rewrite (proj2 (Nat.ltb_lt 1 _) Hmany).
  destruct (dict_keys (outputs (interface (_sdk_workflow self))))
    as [|n0 names]; [simpl in Hmany; lia|].
  destruct Hscalar as [->|[n ->]]; reflexivity.
Qed.

(** X19: whatever its arguments, its outcome and the state it is made in,
    a call leaves the context stack as it found it, and observes at most
    one thing: either nothing, or the one warning of a failed conversion,
    or one call of the body under the local workflow execution context;
    never a warning and a body call both. *)
Theorem call_restores_contexts_and_observes_once (self : Workflow)
    (args : list PyObj) (kwargs : dict PyObj) (w : World) :
  let w' := snd (Workflow.__call__ self args kwargs w) in
  contexts w' = contexts w /\
  (history w' = history w \/
   history w' = history w ++ [Warning "Exception!!!"] \/
   exists promises, history w' = history w ++ [Called local_context promises]).
Proof.
  destruct args as [|a args].
  - destruct (compilation_state (hd uninitialized (contexts w))) as [cs|] eqn:Hcs.
    + unfold Workflow.__call__, bind, current_context. simpl. rewrite Hcs.
      simpl. split; [reflexivity | left; reflexivity].
    + assert (Hnc : ~ compiling w)
        by (unfold compiling; rewrite Hcs; intros H; apply H; reflexivity).
      destruct (Workflow.collides kwargs) eqn:Hfree.
      * rewrite (call_collision self kwargs w Hnc Hfree). simpl.
        split; [reflexivity | left; reflexivity].
      * rewrite (call_local self kwargs w Hnc Hfree).
        destruct (Workflow.inputs_as_dict_of_literals self local_context
                    kwargs) as [e|literals]; simpl.
        -- split; [reflexivity | right; left; reflexivity].
        -- split; [reflexivity | right; right; eexists; reflexivity].
  - simpl. split; [reflexivity | left; reflexivity].
Qed.

(** X20: declaring a function and then calling the instance locally,
    with no keyword argument named [self] or [ctx], invokes the same body
    twice.  The declaration invoked it under the compilation context with
    the input references: it returned normally and the nodes it registered
    are the stored node list.  The call invokes it under the local
    execution context with the promises, and returns or raises what is
    computed from that second invocation, reading the interface that the
    declaration derived. *)
Theorem declared_workflow_runs_body_twice (fn : WorkflowFunction)
    (w w' : World) (ni : NativeInterface) (ti : TypedInterface)
    (instance : nat) (wf : Workflow) (kwargs : dict PyObj)
    (literals : dict Literal) :
  transform_signature_to_interface (signature fn) = inr ni ->
  transform_interface_to_typed_interface ni = inr ti ->
  wrapper fn w = (inr instance, w') ->
  nth_error (heap w') instance = Some wf ->
  Workflow.collides kwargs = false ->
  Workflow.inputs_as_dict_of_literals wf local_context kwargs = inr literals ->
  let promises := Workflow.inputs_as_wrapped_promises literals in
  _workflow_function wf = fn /\
  interface (_sdk_workflow wf) = ti /\
  (exists workflow_outputs,
      fst (body fn (input_kwargs ti) trace_context) = inr workflow_outputs) /\
  sdk_nodes (_sdk_workflow wf) =
    snd (body fn (input_kwargs ti) trace_context) /\
  history w' = history w ++ [Called trace_context (input_kwargs ti)] /\
  invoke instance [] kwargs w' =
  (let? function_outputs := fst (body fn promises local_context) in
   let? output_literal_map :=
     Workflow.output_literal_map wf function_outputs in
   match output_literal_map with
   | None => inr PyNone
   | Some m => idl_literal_map_to_python_value local_context m
   end,
   observed (Called local_context promises) w').
Proof.
  intros Hni Hti Hok Hwf Hfree Hin promises.
  destruct (wrapper_succeeded fn w w' instance Hok)
    as [ni' [ti' [Hni' [Hti' Hnc]]]].
  rewrite Hni in Hni'. inversion Hni'; subst ni'.
  rewrite Hti in Hti'. inversion Hti'; subst ti'.
  pose proof Hok as Hok'.
  rewrite (wrapper_traced fn w ni ti Hni Hti Hnc) in Hok'. cbv zeta in Hok'.
  destruct (fst (body fn (input_kwargs ti) trace_context))
    as [e|workflow_outputs] eqn:Hbody; simpl in Hok'; [discriminate|].
  destruct (bindings_of ti workflow_outputs) as [e|bindings];
    [discriminate|].
  inversion Hok'; subst instance w'. simpl in Hwf.
  rewrite nth_error_last in Hwf. inversion Hwf; subst wf.
  split; [reflexivity|]. split; [reflexivity|].
  split; [exists workflow_outputs; reflexivity|].
  split; [reflexivity|]. split; [reflexivity|].
  unfold invoke. simpl heap. rewrite nth_error_last.
  rewrite call_local by assumption.
  rewrite Hin. reflexivity.
Qed.


End FurtherCalls.

(** ** The further properties at the workflows of the example *)

Section FurtherExamples.
#[local] Existing Instance Example.models.
#[local] Existing Instance Example.collaborators.
Import Example.

Lemma not_compiling_fresh : ~ compiling fresh.
Proof. unfold compiling. simpl. intros Hc. apply Hc. reflexivity. Qed.

Lemma get_default_args_lookup_witness :
  dict_get "b" (get_default_args wf_raises) = Some (PyStr "x").
Proof.
  refine (eq_trans (get_default_args_lookup wf_raises "b" _) _).
  - simpl. repeat constructor; simpl; intuition discriminate.
  - reflexivity.
Defined.

Lemma declaration_propagates_body_error_witness :
  wrapper wf_raises fresh =
  (inl (OtherError "ValueError" "boom"),
   observed (Called trace_context (input_kwargs three_interface)) fresh).
Proof.
  apply (declaration_propagates_body_error wf_raises fresh three_native
           three_interface).
  - reflexivity.
  - reflexivity.
  - exact not_compiling_fresh.
  - reflexivity.
Defined.

Lemma declaration_stores_function_interface_and_nodes_witness :
  exists wf,
    nth_error (heap pair_declared) 0 = Some wf /\
    _workflow_function wf = wf_pair /\
    interface (_sdk_workflow wf) = pair_interface /\
    sdk_nodes (_sdk_workflow wf) =
      snd (body wf_pair (input_kwargs pair_interface) trace_context).
Proof.
  apply (declaration_stores_function_interface_and_nodes wf_pair fresh
           pair_declared pair_native pair_interface 0).
  - reflexivity.
  - reflexivity.
  - vm_compute. reflexivity.
Defined.

Lemma declaration_without_outputs_binds_nothing_witness :
  exists w' wf,
    wrapper wf_void fresh = (inr (List.length (heap fresh)), w') /\
    nth_error (heap w') (List.length (heap fresh)) = Some wf /\
    output_bindings (_sdk_workflow wf) = [].
Proof.
  apply (declaration_without_outputs_binds_nothing wf_void fresh void_native
           void_interface (PyInt 5)).
  - reflexivity.
  - reflexivity.
  - exact not_compiling_fresh.
  - reflexivity.
  - reflexivity.
Defined.

Lemma declaration_with_too_many_values_fails_witness :
  wrapper wf_long fresh =
  (inl IndexError,
   observed (Called trace_context (input_kwargs one_interface)) fresh).
Proof.
  apply (declaration_with_too_many_values_fails wf_long fresh one_native
           one_interface [reference "n0" "o0"; reference "n1" "o0"]).
  - reflexivity.
  - reflexivity.
  - exact not_compiling_fresh.
  - reflexivity.
  - discriminate.
  - simpl. lia.
Defined.

Lemma declaration_with_scalar_result_fails_witness :
  wrapper wf_none fresh =
  (inl TypeError,
   observed (Called trace_context (input_kwargs one_interface)) fresh).
Proof.
  apply (declaration_with_scalar_result_fails wf_none fresh one_native
           one_interface PyNone).
  - reflexivity.
  - reflexivity.
  - exact not_compiling_fresh.
  - reflexivity.
  - discriminate.
  - left. reflexivity.
Defined.

Lemma declaration_propagates_interface_error_witness :
  wrapper (collaborators := rejecting) wf_pair fresh =
  (inl (OtherError "TypeError" "unsupported annotation"), fresh).
Proof.
  apply (declaration_propagates_interface_error (collaborators := rejecting)
           wf_pair fresh).
  left. reflexivity.
Defined.

Lemma undeclared_keyword_raises_key_error_witness :
  Workflow.__call__ limit_instance []
    ([("limit", PyInt 5)] ++ ("nolimit", PyInt 1) :: []) fresh =
  (inl (KeyError (PyStr "nolimit")), observed (Warning "Exception!!!") fresh).
Proof.
  apply (undeclared_keyword_raises_key_error limit_instance
           [("limit", PyInt 5)] "nolimit" (PyInt 1) [] fresh).
  - exact not_compiling_fresh.
  - reflexivity.
  - intros kv [<-|[]]. eexists. reflexivity.
  - reflexivity.
Defined.

Lemma call_propagates_body_error_witness :
  Workflow.__call__ (instance_of wf_raises three_interface) []
    [("a", PyInt 1)] fresh =
  (inl (OtherError "ValueError" "boom"),
   observed (Called local_context
               (Workflow.inputs_as_wrapped_promises [("a", LitInt 1)]))
     fresh).
Proof.
  apply (call_propagates_body_error (instance_of wf_raises three_interface)
           [("a", PyInt 1)] fresh [("a", LitInt 1)]).
  - exact not_compiling_fresh.
  - reflexivity.
  - reflexivity.
  - reflexivity.
Defined.

Lemma body_receives_one_promise_per_keyword_witness :
  let promises :=
    map (fun kl => (fst kl, PyPromise (fst kl) (snd kl)))
      (combine (dict_keys [("a", PyInt 5); ("b", PyStr "hi")])
         [LitInt 5; LitStr "hi"]) in
  Workflow.__call__ (instance_of wf_pair pair_interface) []
    [("a", PyInt 5); ("b", PyStr "hi")] fresh =
  (let? function_outputs :=
     fst (body (_workflow_function (instance_of wf_pair pair_interface))
            promises local_context) in
   let? output_literal_map :=
     Workflow.output_literal_map (instance_of wf_pair pair_interface)
       function_outputs in
   match output_literal_map with
   | None => inr PyNone
   | Some m => idl_literal_map_to_python_value local_context m
   end,
   observed (Called local_context promises) fresh).
Proof.
  apply (body_receives_one_promise_per_keyword
           (instance_of wf_pair pair_interface)
           [("a", PyInt 5); ("b", PyStr "hi")] [LitInt 5; LitStr "hi"] fresh).
  - exact not_compiling_fresh.
  - reflexivity.
  - simpl. repeat constructor; simpl; intuition discriminate.
  - repeat constructor.
Defined.

Lemma call_propagates_output_conversion_error_witness :
  Workflow.__call__ (collaborators := picky)
    (instance_of wf_pair pair_interface) []
    [("a", PyInt 5); ("b", PyStr "hi")] fresh =
  (inl (OtherError "TypeError" "no native value for a string"),
   observed (Called local_context
               (Workflow.inputs_as_wrapped_promises
                  [("a", LitInt 5); ("b", LitStr "hi")]))
     fresh).
Proof.
  apply (call_propagates_output_conversion_error (collaborators := picky)
           (instance_of wf_pair pair_interface)
           [("a", PyInt 5); ("b", PyStr "hi")] fresh
           [("a", LitInt 5); ("b", LitStr "hi")]
           (PyTuple [ready "o0" (LitInt 5); ready "o0" (LitStr "hi")])
           [("o0", LitInt 5); ("o1", LitStr "hi")]).
  - exact not_compiling_fresh.
  - reflexivity.
  - reflexivity.
  - reflexivity.
  - reflexivity.
  - reflexivity.
Defined.

Lemma call_with_too_few_values_fails_witness :
  fst (Workflow.__call__ (instance_of wf_short short_interface) []
         [("a", PyInt 5)] fresh) = inl IndexError.
Proof.
  apply (call_with_too_few_values_fails (instance_of wf_short short_interface)
           [("a", PyInt 5)] fresh [("a", LitInt 5)]
           [ready "o0" (LitInt 5)]).
  - exact not_compiling_fresh.
  - reflexivity.
  - reflexivity.
  - reflexivity.
  - simpl. lia.
  - repeat constructor. eexists. reflexivity.
  - simpl. lia.
Defined.

Lemma call_ignores_extra_values_witness :
  fst (Workflow.__call__ (instance_of wf_triple short_interface) []
         [("a", PyInt 5)] fresh) =
  inr (PyDict (combine
                 (dict_keys (outputs (interface
                    (_sdk_workflow (instance_of wf_triple short_interface)))))
                 [PyInt 5; PyInt 5])).
Proof.
  apply (call_ignores_extra_values (instance_of wf_triple short_interface)
           [("a", PyInt 5)] fresh [("a", LitInt 5)]
           [ready "o0" (LitInt 5); ready "o0" (LitInt 5)]
           [ready "o0" (LitInt 5)]
           [LitInt 5; LitInt 5] [PyInt 5; PyInt 5]).
  - exact not_compiling_fresh.
  - reflexivity.
  - reflexivity.
  - reflexivity.
  - simpl. lia.
  - simpl. repeat constructor; simpl; intuition discriminate.
  - repeat constructor.
  - repeat constructor.
  - reflexivity.
Defined.

Lemma call_single_output_rejects_tuple_witness :
  fst (Workflow.__call__ (instance_of wf_long one_interface) []
         [("a", PyInt 5)] fresh) = inl AttributeError.
Proof.
  apply (call_single_output_rejects_tuple (instance_of wf_long one_interface)
           [("a", PyInt 5)] fresh [("a", LitInt 5)]
           [ready "o0" (LitInt 5); ready "o0" (LitInt 5)] "o0").
  - exact not_compiling_fresh.
  - reflexivity.
  - reflexivity.
  - reflexivity.
  - reflexivity.
Defined.

Lemma call_many_outputs_rejects_scalar_witness :
  fst (Workflow.__call__ (instance_of wf_none short_interface) []
         [("a", PyInt 5)] fresh) = inl TypeError.
Proof.
  apply (call_many_outputs_rejects_scalar (instance_of wf_none short_interface)
           [("a", PyInt 5)] fresh [("a", LitInt 5)] PyNone).
  - exact not_compiling_fresh.
  - reflexivity.
  - reflexivity.
  - simpl. lia.
  - left. reflexivity.
Defined.

Lemma declared_workflow_runs_body_twice_witness :
  let promises :=
    Workflow.inputs_as_wrapped_promises
      [("a", LitInt 5); ("b", LitStr "hi")] in
  _workflow_function pair_stored = wf_pair /\
  interface (_sdk_workflow pair_stored) = pair_interface /\
  (exists workflow_outputs,
      fst (body wf_pair (input_kwargs pair_interface) trace_context) =
      inr workflow_outputs) /\
  sdk_nodes (_sdk_workflow pair_stored) =
    snd (body wf_pair (input_kwargs pair_interface) trace_context) /\
  history pair_declared =
    history fresh ++ [Called trace_context (input_kwargs pair_interface)] /\
  invoke 0 [] [("a", PyInt 5); ("b", PyStr "hi")] pair_declared =
  (let? function_outputs := fst (body wf_pair promises local_context) in
   let? output_literal_map :=
     Workflow.output_literal_map pair_stored function_outputs in
   match output_literal_map with
   | None => inr PyNone
   | Some m => idl_literal_map_to_python_value local_context m
   end,
   observed (Called local_context promises) pair_declared).
Proof.
  apply (declared_workflow_runs_body_twice wf_pair fresh pair_declared
           pair_native pair_interface 0 pair_stored
           [("a", PyInt 5); ("b", PyStr "hi")]
           [("a", LitInt 5); ("b", LitStr "hi")]).
  - reflexivity.
  - reflexivity.
  - vm_compute. reflexivity.
  - vm_compute. reflexivity.
  - reflexivity.
  - reflexivity.
Defined.


End FurtherExamples.
